(** * NFP driver: resource directory (nfpcore/nfp_resource.c) and
      UAL port identifiers (mbl/nfp_ual.c)

    A shallow embedding of the two C files.  Device memory is a list of
    bytes, fixed-width integers are [Z] with their wrap-around written out,
    pointers that may be NULL are [option], and the calls into the rest of
    the kernel (allocator, CPP bus, hardware mutexes, logging) are recorded
    in an event log threaded through a small state monad. *)

From Stdlib Require Import String.
From Stdlib Require Import ZArith List Bool Lia.
From Stdlib.Strings Require Import Byte.
Import ListNotations.
Local Open Scope Z_scope.

(** ** Fixed-width integers and errno values *)

Definition u32 (x : Z) : Z := x mod 2 ^ 32.
Definition u64 (x : Z) : Z := x mod 2 ^ 64.

Definition EPERM : Z := 1.
Definition ENOENT : Z := 2.
Definition EIO : Z := 5.
Definition EAGAIN : Z := 11.
Definition ENOMEM : Z := 12.
Definition EBUSY : Z := 16.
Definition EEXIST : Z := 17.
Definition EINVAL : Z := 22.

(** ** Bytes, buffers and C strings *)

Definition byte_val (b : byte) : Z := Z.of_N (Byte.to_N b).

Definition byte_of_Z (z : Z) : byte :=
  match Byte.of_N (Z.to_N (z mod 256)) with
  | Some b => b
  | None => x00
  end.

(** The entry is read in place into a C struct, so its [u32] fields are
    seen in the byte order of the host. *)
Inductive byte_order : Type := LittleEndian | BigEndian.

Fixpoint le_bytes_val (bs : list byte) : Z :=
  match bs with
  | [] => 0
  | b :: rest => byte_val b + 256 * le_bytes_val rest
  end.

Definition load_u8 (buf : list byte) (off : nat) : Z :=
  byte_val (nth off buf x00).

Definition load_u32 (o : byte_order) (buf : list byte) (off : nat) : Z :=
  let bs := firstn 4 (skipn off buf) in
  match o with
  | LittleEndian => le_bytes_val bs
  | BigEndian => le_bytes_val (rev bs)
  end.

Definition store_u32 (o : byte_order) (v : Z) : list byte :=
  let bs := [byte_of_Z v; byte_of_Z (v / 2 ^ 8);
             byte_of_Z (v / 2 ^ 16); byte_of_Z (v / 2 ^ 24)] in
  match o with
  | LittleEndian => bs
  | BigEndian => rev bs
  end.

(** The characters of the C string stored at the start of [buf]: everything
    before the first NUL.  A list that ends without a NUL is read as if the
    terminator followed it. *)
Fixpoint c_str (buf : list byte) : list byte :=
  match buf with
  | [] => []
  | c :: rest => if Byte.eqb c x00 then [] else c :: c_str rest
  end.

(** The [n] bytes that [strncpy(dest, src, n)] writes: the characters of
    [src] up to its NUL or up to [n] of them, then NUL padding. *)
Fixpoint strncpy_bytes (src : list byte) (n : nat) : list byte :=
  match n with
  | O => []
  | S n' =>
      match src with
      | [] => x00 :: strncpy_bytes [] n'
      | c :: src' =>
          if Byte.eqb c x00 then x00 :: strncpy_bytes [] n'
          else c :: strncpy_bytes src' n'
      end
  end.

Definition strncpy (dest src : list byte) (n : nat) : list byte :=
  strncpy_bytes src n ++ skipn n dest.

(** [memcmp(a, b, n)]: zero when the first [n] bytes agree, otherwise the
    difference of the first pair of bytes that differ. *)
Fixpoint memcmp (a b : list byte) (n : nat) : Z :=
  match n, a, b with
  | S n', x :: a', y :: b' =>
      if Byte.eqb x y then memcmp a' b' n' else byte_val x - byte_val y
  | _, _, _ => 0
  end.

(** ** The on-device table entry (nfp_resource.c, lines 47-80) *)

Definition NFP_RESOURCE_ENTRY_NAME_SZ : nat := 8.

Record nfp_resource_entry_mutex : Type := {
  mutex_owner : Z;
  mutex_key : Z
}.

Record nfp_resource_entry_region : Type := {
  region_name : list byte;
  region_reserved : list byte;
  region_cpp_action : Z;
  region_cpp_token : Z;
  region_cpp_target : Z;
  region_page_offset : Z;
  region_page_size : Z
}.

Record nfp_resource_entry : Type := {
  entry_mutex : nfp_resource_entry_mutex;
  entry_region : nfp_resource_entry_region
}.

(** Every [u32] field sits at an offset that is a multiple of four, so the
    struct has no padding and its size is the sum of its fields. *)
Definition sizeof_nfp_resource_entry_mutex : Z := 4 + 4.

Definition sizeof_nfp_resource_entry_region : Z :=
  Z.of_nat NFP_RESOURCE_ENTRY_NAME_SZ + 5 + 1 + 1 + 1 + 4 + 4.

Definition sizeof_nfp_resource_entry : Z :=
  sizeof_nfp_resource_entry_mutex + sizeof_nfp_resource_entry_region.

Definition NFP_RESOURCE_TBL_SIZE : Z := 4096.

Definition NFP_RESOURCE_TBL_ENTRIES : Z :=
  NFP_RESOURCE_TBL_SIZE / sizeof_nfp_resource_entry.

(** The struct as seen through the bytes the bus read left in it. *)
Definition read_entry (o : byte_order) (buf : list byte) : nfp_resource_entry :=
  {| entry_mutex :=
       {| mutex_owner := load_u32 o buf 0;
          mutex_key := load_u32 o buf 4 |};
     entry_region :=
       {| region_name := firstn NFP_RESOURCE_ENTRY_NAME_SZ (skipn 8 buf);
          region_reserved := firstn 5 (skipn 16 buf);
          region_cpp_action := load_u8 buf 21;
          region_cpp_token := load_u8 buf 22;
          region_cpp_target := load_u8 buf 23;
          region_page_offset := load_u32 o buf 24;
          region_page_size := load_u32 o buf 28 |} |}.

(** The bytes of an entry in device memory, used to lay out tables. *)
Definition write_entry (o : byte_order) (e : nfp_resource_entry) : list byte :=
  store_u32 o (mutex_owner (entry_mutex e))
  ++ store_u32 o (mutex_key (entry_mutex e))
  ++ strncpy_bytes (region_name (entry_region e)) NFP_RESOURCE_ENTRY_NAME_SZ
  ++ firstn 5 (region_reserved (entry_region e) ++ repeat x00 5)
  ++ [byte_of_Z (region_cpp_action (entry_region e));
      byte_of_Z (region_cpp_token (entry_region e));
      byte_of_Z (region_cpp_target (entry_region e))]
  ++ store_u32 o (region_page_offset (entry_region e))
  ++ store_u32 o (region_page_size (entry_region e)).

(** ** Handles (nfp_resource.c, lines 82-88) *)

(** A hardware mutex handle as returned by [nfp_cpp_mutex_alloc]; [mx_id]
    stands for the identity of the allocation. *)
Record nfp_cpp_mutex : Type := {
  mx_id : nat;
  mx_target : Z;
  mx_address : Z;
  mx_key : Z
}.

Record nfp_resource : Type := {
  res_name : list byte;
  res_cpp_id : Z;
  res_addr : Z;
  res_size : Z;
  res_mutex : option nfp_cpp_mutex
}.

(** What [ERR_PTR] packs into one pointer: a handle or a negative errno. *)
Inductive resource_ptr : Type :=
| Ptr (res : nfp_resource)
| ERR_PTR (err : Z).

(** ** The outside world *)

(** Calls that leave nfp_resource.c and nfp_ual.c, in program order. *)
Inductive event : Type :=
| EvKzalloc (ok : bool)
| EvKfree
| EvMutexAlloc (target address key : Z) (m : option nfp_cpp_mutex)
| EvMutexLock (m : option nfp_cpp_mutex) (ret : Z)
| EvMutexUnlock (m : option nfp_cpp_mutex) (ret : Z)
| EvMutexFree (m : option nfp_cpp_mutex)
| EvRead (cpp_id addr len ret : Z)
| EvErr (msg : string)
| EvInfo (devname : string) (old_id new_id : Z).

(** The device behind a [struct nfp_cpp *]: what the bus and the hardware
    mutexes answer.  These primitives live outside the two files. *)
Record nfp_cpp : Type := {
  cpp_read_result : Z -> Z -> Z -> Z * list byte;
  mutex_alloc_ok : Z -> Z -> Z -> bool;
  mutex_lock_result : option nfp_cpp_mutex -> Z;
  mutex_unlock_result : option nfp_cpp_mutex -> Z
}.

Record world : Type := {
  log : list event;
  next_id : nat
}.

Definition M (A : Type) : Type := world -> A * world.

Definition ret {A : Type} (a : A) : M A := fun w => (a, w).

Definition bind {A B : Type} (m : M A) (f : A -> M B) : M B :=
  fun w => f (fst (m w)) (snd (m w)).

Notation "x <- m ;; f" := (bind m (fun x => f))
  (at level 61, m at next level, right associativity).
Notation "m ;; f" := (bind m (fun _ => f))
  (at level 61, right associativity).

Definition emit (e : event) : M unit :=
  fun w => (tt, {| log := log w ++ [e]; next_id := next_id w |}).

Definition fresh_id : M nat :=
  fun w => (next_id w, {| log := log w; next_id := S (next_id w) |}).

(** ** Observations on an event log *)

(** Two handles are the same allocation when their identities agree. *)
Definition mutex_eqb (a b : nfp_cpp_mutex) : bool := Nat.eqb (mx_id a) (mx_id b).

Definition is_read (e : event) : bool :=
  match e with EvRead _ _ _ _ => true | _ => false end.

Definition is_err (e : event) : bool :=
  match e with EvErr _ => true | _ => false end.

Definition is_kfree (e : event) : bool :=
  match e with EvKfree => true | _ => false end.

Definition is_unlock_of (m : nfp_cpp_mutex) (e : event) : bool :=
  match e with EvMutexUnlock (Some m') _ => mutex_eqb m m' | _ => false end.

Definition is_free_of (m : nfp_cpp_mutex) (e : event) : bool :=
  match e with EvMutexFree (Some m') => mutex_eqb m m' | _ => false end.

(** Addresses of the bus reads, in the order they were issued. *)
Fixpoint read_addrs (tr : list event) : list Z :=
  match tr with
  | [] => []
  | EvRead _ addr _ _ :: rest => addr :: read_addrs rest
  | _ :: rest => read_addrs rest
  end.

Definition count (p : event -> bool) (tr : list event) : nat :=
  length (filter p tr).

(** Mutex allocations that no later event frees. *)
Fixpoint outstanding (tr : list event) : list nfp_cpp_mutex :=
  match tr with
  | [] => []
  | EvMutexAlloc _ _ _ (Some m) :: rest =>
      if existsb (is_free_of m) rest then outstanding rest
      else m :: outstanding rest
  | _ :: rest => outstanding rest
  end.

(** Mutexes whose lock call succeeded and on which no later unlock call
    was made. *)
Fixpoint held (tr : list event) : list nfp_cpp_mutex :=
  match tr with
  | [] => []
  | EvMutexLock (Some m) r :: rest =>
      if (r =? 0) && negb (existsb (is_unlock_of m) rest)
      then m :: held rest else held rest
  | _ :: rest => held rest
  end.

(** ** Sample values for what the absent headers define

    crc32.h, nfp_cpp.h and nfp.h are not part of the sources.  The model
    below takes [crc32_posix], [NFP_CPP_ID] and the [NFP_RESOURCE_TBL_*]
    constants as parameters; the definitions of this part only serve to run
    it on concrete tables. *)

Definition crc32_be_bit (crc : Z) : Z :=
  let s := Z.shiftl crc 1 mod 2 ^ 32 in
  if Z.testbit crc 31 then Z.lxor s 0x04C11DB7 else s.

Definition crc32_be_byte (crc : Z) (b : byte) : Z :=
  Nat.iter 8 crc32_be_bit (Z.lxor crc (Z.shiftl (byte_val b) 24)).

Definition crc32_be (crc : Z) (buf : list byte) : Z :=
  fold_left crc32_be_byte buf crc.

Fixpoint crc32_posix_end (fuel : nat) (crc total_len : Z) : Z :=
  match fuel with
  | O => Z.lxor crc 0xffffffff
  | S fuel' =>
      if total_len =? 0 then Z.lxor crc 0xffffffff
      else crc32_posix_end fuel'
             (crc32_be_byte crc (byte_of_Z (Z.land total_len 0xff)))
             (Z.shiftr total_len 8)
  end.

(** Modelled from the spec: crc32.h ([crc32_posix]) is missing.  The spec
    names the CRC-32 of POSIX cksum: polynomial 0x04C11DB7, most significant
    bit first, initial value zero, the length appended low byte first, the
    result complemented. *)
Definition crc32_posix_cksum (buf : list byte) : Z :=
  crc32_posix_end 8 (crc32_be 0 buf) (Z.of_nat (length buf)).

(** A target/action/token packing in the shape of the [NFP_CPP_ID] macro. *)
Definition sample_cpp_id (target action token : Z) : Z :=
  Z.lor (Z.lor (Z.shiftl (Z.land target 0x7f) 24)
               (Z.shiftl (Z.land token 0xff) 16))
        (Z.shiftl (Z.land action 0xff) 8).

Definition sample_tbl_target : Z := 7.
Definition sample_tbl_base : Z := 0x8100000000.
Definition sample_tbl_key : Z := 0.
Definition sample_tbl_name : list byte := list_byte_of_string "nfp.res".

Definition sample_entry (name : string) (key target offset size : Z)
  : nfp_resource_entry :=
  {| entry_mutex := {| mutex_owner := 0; mutex_key := key |};
     entry_region :=
       {| region_name := list_byte_of_string name;
          region_reserved := [];
          region_cpp_action := 0;
          region_cpp_token := 0;
          region_cpp_target := target;
          region_page_offset := offset;
          region_page_size := size |} |}.

Definition name_key (name : string) : Z :=
  u32 (crc32_posix_cksum (strncpy_bytes (list_byte_of_string name) 8)).

(** A bus backed by a table laid out from [sample_tbl_base]; slots past the
    end of [tbl] read as zero bytes, and the slot [short_at], if any,
    answers with half an entry. *)
Definition table_read (tbl : list nfp_resource_entry) (short_at : option nat)
  (cpp_id addr len : Z) : Z * list byte :=
  let i := Z.to_nat ((addr - sample_tbl_base) / sizeof_nfp_resource_entry) in
  let bytes :=
    match nth_error tbl i with
    | Some e => write_entry LittleEndian e
    | None => repeat x00 (Z.to_nat len)
    end in
  match short_at with
  | Some k => if Nat.eqb i k then (len / 2, firstn (Z.to_nat (len / 2)) bytes)
              else (len, bytes)
  | None => (len, bytes)
  end.

(** A device on which every mutex operation succeeds. *)
Definition table_cpp (tbl : list nfp_resource_entry) (short_at : option nat)
  : nfp_cpp :=
  {| cpp_read_result := table_read tbl short_at;
     mutex_alloc_ok := fun _ _ _ => true;
     mutex_lock_result := fun _ => 0;
     mutex_unlock_result := fun _ => 0 |}.

(** A device on which the mutex of every slot but the first is refused. *)
Definition busy_cpp (tbl : list nfp_resource_entry) : nfp_cpp :=
  {| cpp_read_result := table_read tbl None;
     mutex_alloc_ok := fun _ _ _ => true;
     mutex_lock_result :=
       fun m =>
         match m with
         | Some m => if mx_address m =? sample_tbl_base then 0 else - EBUSY
         | None => - EINVAL
         end;
     mutex_unlock_result := fun _ => 0 |}.

(** A device that has memory for the device mutex and for no other. *)
Definition starved_cpp (tbl : list nfp_resource_entry) : nfp_cpp :=
  {| cpp_read_result := table_read tbl None;
     mutex_alloc_ok := fun _ address _ => address =? sample_tbl_base;
     mutex_lock_result :=
       fun m => match m with Some _ => 0 | None => - EINVAL end;
     mutex_unlock_result := fun _ => 0 |}.

(** A device on which every unlock reports that the caller is not the
    owner. *)
Definition stuck_cpp : nfp_cpp :=
  {| cpp_read_result := table_read [] None;
     mutex_alloc_ok := fun _ _ _ => true;
     mutex_lock_result := fun _ => 0;
     mutex_unlock_result := fun _ => - EPERM |}.

(** A device on which no mutex can be locked. *)
Definition refusing_cpp (tbl : list nfp_resource_entry) : nfp_cpp :=
  {| cpp_read_result := table_read tbl None;
     mutex_alloc_ok := fun _ _ _ => true;
     mutex_lock_result := fun _ => - EBUSY;
     mutex_unlock_result := fun _ => 0 |}.

(** A device on which locks are granted and every unlock fails. *)
Definition unlock_failing_cpp (tbl : list nfp_resource_entry) : nfp_cpp :=
  {| cpp_read_result := table_read tbl None;
     mutex_alloc_ok := fun _ _ _ => true;
     mutex_lock_result := fun _ => 0;
     mutex_unlock_result := fun _ => - EPERM |}.

Definition sample_handle : nfp_resource :=
  {| res_name := list_byte_of_string "fw.cache" ++ [x00];
     res_cpp_id := 0x07000000;
     res_addr := 1024;
     res_size := 512;
     res_mutex := Some {| mx_id := 1; mx_target := 7;
                          mx_address := sample_tbl_base + 32;
                          mx_key := 1285083536 |} |}.

(** Masks that split the port identifier into a high MBL byte and the UAL
    bits below it; the headers that define the real ones are not part of
    the sources. *)
Definition sample_mbl_mask : Z := 0xff000000.
Definition sample_ual_mask : Z := 0x00ffffff.

Definition scenario_a_table : list nfp_resource_entry :=
  [sample_entry "nfp.res" sample_tbl_key 7 0x81000000 16;
   sample_entry "fw.cache" (name_key "fw.cache") 7 4 2].

(** A table whose 128 slots are all populated, none under the key of
    "missing_". *)
Definition full_table : list nfp_resource_entry :=
  map (fun i => sample_entry "resource" (Z.of_nat i + 1) 7 (Z.of_nat i) 1)
      (seq 0 128).

Definition empty_world : world := {| log := []; next_id := 0 |}.

(** ** The driver code *)

Section Driver.

(** Byte order of the host, and what crc32.h, nfp_cpp.h and nfp.h define. *)
Variable host_order : byte_order.
Variable crc32_posix : list byte -> Z.
Variable NFP_CPP_ID : Z -> Z -> Z -> Z.
Variable NFP_RESOURCE_TBL_TARGET : Z.
Variable NFP_RESOURCE_TBL_BASE : Z.
Variable NFP_RESOURCE_TBL_KEY : Z.
Variable NFP_RESOURCE_TBL_NAME : list byte.

(** Whether the kernel allocator has memory for the handle, and the device
    all handles of this run refer to. *)
Variable kzalloc_ok : bool.
Variable cpp : nfp_cpp.

(** *** Calls into the kernel and the CPP core *)

(** [kzalloc] of one [struct nfp_resource]: a zero-filled handle, or NULL. *)
Definition kzalloc : M (option nfp_resource) :=
  emit (EvKzalloc kzalloc_ok) ;;
  ret (if kzalloc_ok
       then Some {| res_name := repeat x00 (NFP_RESOURCE_ENTRY_NAME_SZ + 1);
                    res_cpp_id := 0;
                    res_addr := 0;
                    res_size := 0;
                    res_mutex := None |}
       else None).

Definition kfree : M unit := emit EvKfree.

Definition nfp_err (msg : string) : M unit := emit (EvErr msg).

Definition nfp_cpp_read (cpp_id addr len : Z) : M (Z * list byte) :=
  let r := cpp_read_result cpp cpp_id addr len in
  emit (EvRead cpp_id addr len (fst r)) ;;
  ret r.

Definition nfp_cpp_mutex_alloc (target address key : Z)
  : M (option nfp_cpp_mutex) :=
  if mutex_alloc_ok cpp target address key then
    id <- fresh_id ;;
    let m := Some {| mx_id := id; mx_target := target;
                     mx_address := address; mx_key := key |} in
    emit (EvMutexAlloc target address key m) ;;
    ret m
  else
    emit (EvMutexAlloc target address key None) ;;
    ret None.

Definition nfp_cpp_mutex_lock (mutex : option nfp_cpp_mutex) : M Z :=
  let r := mutex_lock_result cpp mutex in
  emit (EvMutexLock mutex r) ;;
  ret r.

Definition nfp_cpp_mutex_unlock (mutex : option nfp_cpp_mutex) : M Z :=
  let r := mutex_unlock_result cpp mutex in
  emit (EvMutexUnlock mutex r) ;;
  ret r.

Definition nfp_cpp_mutex_free (mutex : option nfp_cpp_mutex) : M unit :=
  emit (EvMutexFree mutex).

(** *** nfp_device_lock, nfp_device_unlock (lines 96-124) *)

Definition nfp_device_lock : M (option nfp_cpp_mutex) :=
  mutex <- nfp_cpp_mutex_alloc NFP_RESOURCE_TBL_TARGET
                               NFP_RESOURCE_TBL_BASE
                               NFP_RESOURCE_TBL_KEY ;;
  match mutex with
  | None => ret None
  | Some _ =>
      r <- nfp_cpp_mutex_lock mutex ;;
      if negb (r =? 0) then
        nfp_cpp_mutex_free mutex ;;
        ret None
      else ret mutex
  end.

Definition nfp_device_unlock (mutex : option nfp_cpp_mutex) : M unit :=
  r <- nfp_cpp_mutex_unlock mutex ;;
  (if negb (r =? 0) then nfp_err "Failed to unlock device mutex!"
   else ret tt) ;;
  nfp_cpp_mutex_free mutex.

(** *** nfp_cpp_resource_find (lines 126-168) *)

(** Lines 129-141: the zero-padded name and the key searched for. *)
Definition resource_name_pad (name : list byte) : list byte :=
  strncpy (repeat x00 NFP_RESOURCE_ENTRY_NAME_SZ) name
          NFP_RESOURCE_ENTRY_NAME_SZ.

Definition resource_key (name : list byte) : Z :=
  let name_pad := resource_name_pad name in
  let key := u32 NFP_RESOURCE_TBL_KEY in
  if negb (memcmp name_pad (NFP_RESOURCE_TBL_NAME ++ repeat x00 8) 8 =? 0)
  then u32 (crc32_posix name_pad)
  else key.

(** Lines 155-162: the fields written once the key is found. *)
Definition fill_resource (res : nfp_resource) (entry : nfp_resource_entry)
  (mutex : option nfp_cpp_mutex) : nfp_resource :=
  {| res_name := res_name res;
     res_cpp_id :=
       u32 (NFP_CPP_ID (region_cpp_target (entry_region entry))
                       (region_cpp_action (entry_region entry))
                       (region_cpp_token (entry_region entry)));
     res_addr := u64 (Z.shiftl (u64 (region_page_offset (entry_region entry))) 8);
     res_size := u64 (Z.shiftl (u64 (region_page_size (entry_region entry))) 8);
     res_mutex := mutex |}.

(** Lines 143-167: the loop, with [n] slots left to visit from slot [i].
    [ret] of the read is an [int] compared with a [size_t]; both sides agree
    exactly when the numbers are equal. *)
Fixpoint resource_find_loop (cpp_id key : Z) (res : nfp_resource)
  (n : nat) (i : Z) : M (Z * nfp_resource) :=
  match n with
  | O => ret (- ENOENT, res)
  | S n' =>
      let addr := u64 (NFP_RESOURCE_TBL_BASE + sizeof_nfp_resource_entry * i) in
      r <- nfp_cpp_read cpp_id addr sizeof_nfp_resource_entry ;;
      if negb (fst r =? sizeof_nfp_resource_entry) then ret (- EIO, res)
      else
        let entry := read_entry host_order (snd r) in
        if negb (mutex_key (entry_mutex entry) =? key)
        then resource_find_loop cpp_id key res n' (i + 1)
        else
          mutex <- nfp_cpp_mutex_alloc NFP_RESOURCE_TBL_TARGET addr key ;;
          ret (0, fill_resource res entry mutex)
  end.

Definition nfp_cpp_resource_find (name : list byte) (res : nfp_resource)
  : M (Z * nfp_resource) :=
  let cpp_id := u32 (NFP_CPP_ID NFP_RESOURCE_TBL_TARGET 3 0) in
  let key := resource_key name in
  resource_find_loop cpp_id key res (Z.to_nat NFP_RESOURCE_TBL_ENTRIES) 0.

(** *** nfp_resource_acquire (lines 179-217) *)

(** The three labels at the end of the function. *)
Definition err_free_res (err : Z) : M resource_ptr :=
  kfree ;;
  ret (ERR_PTR err).

Definition err_unlock_dev (dev_mutex : option nfp_cpp_mutex) (err : Z)
  : M resource_ptr :=
  nfp_device_unlock dev_mutex ;;
  err_free_res err.

Definition err_res_mutex_free (res : nfp_resource)
  (dev_mutex : option nfp_cpp_mutex) (err : Z) : M resource_ptr :=
  nfp_cpp_mutex_free (res_mutex res) ;;
  err_unlock_dev dev_mutex err.

Definition set_res_name (res : nfp_resource) (name : list byte) : nfp_resource :=
  {| res_name := name;
     res_cpp_id := res_cpp_id res;
     res_addr := res_addr res;
     res_size := res_size res;
     res_mutex := res_mutex res |}.

Definition nfp_resource_acquire (name : list byte) : M resource_ptr :=
  res <- kzalloc ;;
  match res with
  | None => ret (ERR_PTR (- ENOMEM))
  | Some res =>
      let res :=
        set_res_name res
          (strncpy (res_name res) name NFP_RESOURCE_ENTRY_NAME_SZ) in
      dev_mutex <- nfp_device_lock ;;
      match dev_mutex with
      | None => err_free_res (- ENOMEM)
      | Some _ =>
          found <- nfp_cpp_resource_find name res ;;
          let err := fst found in
          let res := snd found in
          if negb (err =? 0) then err_unlock_dev dev_mutex err
          else
            err <- nfp_cpp_mutex_lock (res_mutex res) ;;
            if negb (err =? 0) then err_res_mutex_free res dev_mutex err
            else
              nfp_device_unlock dev_mutex ;;
              ret (Ptr res)
      end
  end.

(** *** nfp_resource_release and the accessors (lines 225-274) *)

Definition nfp_resource_release (res : nfp_resource) : M unit :=
  nfp_cpp_mutex_unlock (res_mutex res) ;;
  nfp_cpp_mutex_free (res_mutex res) ;;
  kfree.

Definition nfp_resource_cpp_id (res : nfp_resource) : Z := res_cpp_id res.
Definition nfp_resource_name (res : nfp_resource) : list byte := res_name res.
Definition nfp_resource_address (res : nfp_resource) : Z := res_addr res.
Definition nfp_resource_size (res : nfp_resource) : Z := res_size res.

(** *** nfp_ual_set_port_id (nfp_ual.c, lines 133-151) *)

(** nfp_net_repr.h and nfp_ual.h are not part of the sources: the network
    device, its port-identifier accessors and the two masks are taken as
    they come. *)
Variable net_device : Type.
Variable netdev_name : net_device -> string.
Variable nfp_repr_get_port_id : net_device -> Z.
Variable nfp_repr_set_port_id : net_device -> Z -> net_device.
Variable NFP_MBL_PORTID_MBL_MASK : Z.
Variable NFP_MBL_PORTID_UAL_MASK : Z.

Record nfp_repr : Type := { netdev : net_device }.

(** The representor after the call stands for what [repr->netdev] points to
    afterwards. *)
Definition nfp_ual_set_port_id (repr : nfp_repr) (port_id : Z)
  : M (Z * nfp_repr) :=
  if negb (Z.land port_id NFP_MBL_PORTID_MBL_MASK =? 0)
  then ret (- EINVAL, repr)
  else
    let old_port_id := nfp_repr_get_port_id (netdev repr) in
    let new_port_id :=
      Z.lor (Z.land port_id NFP_MBL_PORTID_UAL_MASK)
            (Z.land old_port_id NFP_MBL_PORTID_MBL_MASK) in
    emit (EvInfo (netdev_name (netdev repr)) old_port_id new_port_id) ;;
    ret (0, {| netdev := nfp_repr_set_port_id (netdev repr) new_port_id |}).

(** *** nfp_ual_register, nfp_ual_unregister (nfp_ual.c, lines 51-124) *)

(** nfp_ual.h and the MBL core are not part of the sources.  Of the ops
    structure only the name is read here.  Of the global context the code
    touches the registered ops, the cookie and the primary device context
    (here the name of its device, NULL when no device is bound); whatever
    else the context holds is [mbl_other].  [nfp_mbl_try_init_ual] and
    [nfp_mbl_stop_ual] work on the global context and are taken as they
    come. *)
Variable mbl_private : Type.

Record nfp_ual_ops : Type := { ops_name : option string }.

Record nfp_mbl_global_data : Type := {
  ual_ops : option nfp_ual_ops;
  ual_cookie : option nat;
  dev_ctx_primary : option string;
  mbl_other : mbl_private
}.

Variable nfp_mbl_try_init_ual : nfp_mbl_global_data -> Z * nfp_mbl_global_data.
Variable nfp_mbl_stop_ual : nfp_mbl_global_data -> nfp_mbl_global_data.

Inductive mbl_event : Type :=
| MblWarn
| MblMutexLock
| MblMutexUnlock
| MblDevInfo (dev : string) (fmt : string) (arg : string)
| MblTryInitUal (ret : Z)
| MblStopUal
| MblCancelProbe.

(** What [nfp_mbl_get_global_ctx] returns, and the calls made so far. *)
Record mbl_state : Type := {
  mbl_ctx : option nfp_mbl_global_data;
  mbl_log : list mbl_event
}.

Definition mbl_emit (e : mbl_event) (s : mbl_state) : mbl_state :=
  {| mbl_ctx := mbl_ctx s; mbl_log := mbl_log s ++ [e] |}.

Definition mbl_store (ctx : nfp_mbl_global_data) (s : mbl_state) : mbl_state :=
  {| mbl_ctx := Some ctx; mbl_log := mbl_log s |}.

(** The two assignments to [ctx->ual_cookie] and [ctx->ual_ops]. *)
Definition set_ual (ctx : nfp_mbl_global_data) (ops : option nfp_ual_ops)
  (cookie : option nat) : nfp_mbl_global_data :=
  {| ual_ops := ops;
     ual_cookie := cookie;
     dev_ctx_primary := dev_ctx_primary ctx;
     mbl_other := mbl_other ctx |}.

(** [!ops || !ops->name] *)
Definition ops_unusable (ops : option nfp_ual_ops) : bool :=
  match ops with
  | None => true
  | Some o => match ops_name o with None => true | Some _ => false end
  end.

(** [ctx->ual_ops->name] where the entry check has excluded NULL. *)
Definition registered_name (ops : option nfp_ual_ops) : string :=
  match ops with
  | Some o => match ops_name o with Some n => n | None => EmptyString end
  | None => EmptyString
  end.

(** [ops && ops->name ? ops->name : "(none)"] *)
Definition name_or_none (ops : option nfp_ual_ops) : string :=
  match ops with
  | Some o => match ops_name o with Some n => n | None => "(none)" end
  | None => "(none)"
  end.

Definition nfp_ual_register (ops : option nfp_ual_ops) (cookie : option nat)
  (s : mbl_state) : Z * mbl_state :=
  if ops_unusable ops then (- EINVAL, mbl_emit MblWarn s)
  else
    match mbl_ctx s with
    | None => (- EAGAIN, s)
    | Some ctx =>
        match ual_ops ctx with
        | Some _ => (- EEXIST, s)
        | None =>
            let s1 := mbl_emit MblMutexLock s in
            let ctx1 := set_ual ctx ops cookie in
            let s2 :=
              match dev_ctx_primary ctx1 with
              | Some dev =>
                  mbl_emit (MblDevInfo dev "registered new UAL, %s"
                                       (registered_name (ual_ops ctx1))) s1
              | None => s1
              end in
            let err := fst (nfp_mbl_try_init_ual ctx1) in
            let ctx2 := snd (nfp_mbl_try_init_ual ctx1) in
            let s3 := mbl_emit (MblTryInitUal err) s2 in
            if negb (err =? 0) then
              (err, mbl_emit MblMutexUnlock
                      (mbl_store (set_ual ctx2 None None) s3))
            else
              (0, mbl_emit MblCancelProbe
                    (mbl_emit MblMutexUnlock (mbl_store ctx2 s3)))
        end
    end.

Definition nfp_ual_unregister (s : mbl_state) : option nat * mbl_state :=
  match mbl_ctx s with
  | None => (None, s)
  | Some ctx =>
      let s1 :=
        match dev_ctx_primary ctx with
        | Some dev =>
            mbl_emit (MblDevInfo dev "unregistered UAL, %s"
                                 (name_or_none (ual_ops ctx))) s
        | None => s
        end in
      let ctx1 := nfp_mbl_stop_ual ctx in
      let s2 := mbl_emit MblStopUal s1 in
      let cookie := ual_cookie ctx1 in
      (cookie, mbl_store (set_ual ctx1 None None) s2)
  end.

(** The calls on [mbl_lock] in a log. *)
Definition mbl_lock_ops (l : list mbl_event) : list mbl_event :=
  filter (fun e => match e with
                   | MblMutexLock | MblMutexUnlock => true
                   | _ => false
                   end) l.

(** Events appended to the MBL log between two states. *)
Definition mbl_events_since (s s' : mbl_state) : list mbl_event :=
  skipn (List.length (mbl_log s)) (mbl_log s').

(** *** Vocabulary of the statements *)

(** The world [w] after the events [tr] and [allocs] mutex allocations. *)
Definition world_after (w : world) (tr : list event) (allocs : nat) : world :=
  {| log := log w ++ tr; next_id := allocs + next_id w |}.

(** The handle as it is just before the device lock is taken. *)
Definition named_resource (name : list byte) : nfp_resource :=
  {| res_name :=
       strncpy (repeat x00 (NFP_RESOURCE_ENTRY_NAME_SZ + 1)) name
               NFP_RESOURCE_ENTRY_NAME_SZ;
     res_cpp_id := 0;
     res_addr := 0;
     res_size := 0;
     res_mutex := None |}.

(** Events a computation appended to the log. *)
Definition events_since (w w' : world) : list event :=
  skipn (List.length (log w)) (log w').

Definition acquire_events (name : list byte) (w : world) : list event :=
  events_since w (snd (nfp_resource_acquire name w)).

Definition release_events (res : nfp_resource) (w : world) : list event :=
  events_since w (snd (nfp_resource_release res w)).

(** The name as the table stores it: its characters, cut or zero-filled to
    eight bytes. *)
Definition zero_padded (name : list byte) : list byte :=
  firstn NFP_RESOURCE_ENTRY_NAME_SZ
         (c_str name ++ repeat x00 NFP_RESOURCE_ENTRY_NAME_SZ).

(** The first eight bytes of the literal the padded name is compared with. *)
Definition tbl_name_padded : list byte :=
  firstn NFP_RESOURCE_ENTRY_NAME_SZ (NFP_RESOURCE_TBL_NAME ++ repeat x00 8).

(** Two different padded names collide when their checksums coincide, or when
    the checksum of one is the key reserved for the table itself. *)
Definition checksum_collision (b1 b2 : list byte) : Prop :=
  b1 <> b2 /\
  (u32 (crc32_posix b1) = u32 (crc32_posix b2) \/
   u32 (crc32_posix b1) = u32 NFP_RESOURCE_TBL_KEY \/
   u32 (crc32_posix b2) = u32 NFP_RESOURCE_TBL_KEY).

(** Slot [i] of the table as the scan sees it. *)
Definition tbl_cpp_id : Z := u32 (NFP_CPP_ID NFP_RESOURCE_TBL_TARGET 3 0).

Definition slot_addr (i : Z) : Z :=
  u64 (NFP_RESOURCE_TBL_BASE + sizeof_nfp_resource_entry * i).

Definition slot_read (i : Z) : Z * list byte :=
  cpp_read_result cpp tbl_cpp_id (slot_addr i) sizeof_nfp_resource_entry.

Definition slot_entry (i : Z) : nfp_resource_entry :=
  read_entry host_order (snd (slot_read i)).

Definition slot_key (i : Z) : Z := mutex_key (entry_mutex (slot_entry i)).

(** The read of slot [i] came back whole and under another key. *)
Definition slot_passed (key i : Z) : Prop :=
  fst (slot_read i) = sizeof_nfp_resource_entry /\ slot_key i <> key.

Definition slot_passedb (key i : Z) : bool :=
  (fst (slot_read i) =? sizeof_nfp_resource_entry) && negb (slot_key i =? key).

(** The reads of the [k] slots from [i] on. *)
Fixpoint scan_events (i : Z) (k : nat) : list event :=
  match k with
  | O => []
  | S k' =>
      EvRead tbl_cpp_id (slot_addr i) sizeof_nfp_resource_entry
             (fst (slot_read i))
      :: scan_events (i + 1) k'
  end.

Fixpoint slot_addrs (i : Z) (k : nat) : list Z :=
  match k with
  | O => []
  | S k' => slot_addr i :: slot_addrs (i + 1) k'
  end.

(** The handle of the device lock and of the lock of slot [k] when they are
    the allocations number [id]. *)
Definition device_mutex (id : nat) : nfp_cpp_mutex :=
  {| mx_id := id;
     mx_target := NFP_RESOURCE_TBL_TARGET;
     mx_address := NFP_RESOURCE_TBL_BASE;
     mx_key := NFP_RESOURCE_TBL_KEY |}.

Definition slot_mutex (id : nat) (key k : Z) : nfp_cpp_mutex :=
  {| mx_id := id;
     mx_target := NFP_RESOURCE_TBL_TARGET;
     mx_address := slot_addr k;
     mx_key := key |}.

(** The device lock can be taken in world [w]. *)
Definition device_lock_granted (w : world) : Prop :=
  mutex_alloc_ok cpp NFP_RESOURCE_TBL_TARGET NFP_RESOURCE_TBL_BASE
                 NFP_RESOURCE_TBL_KEY = true /\
  mutex_lock_result cpp (Some (device_mutex (next_id w))) = 0.

(** What [nfp_device_unlock] appends: the unlock call, the complaint if it
    failed, the free. *)
Definition device_unlock_events (m : option nfp_cpp_mutex) : list event :=
  EvMutexUnlock m (mutex_unlock_result cpp m)
  :: (if negb (mutex_unlock_result cpp m =? 0)
      then [EvErr "Failed to unlock device mutex!"] else [])
  ++ [EvMutexFree m].

(** What [nfp_resource_acquire] has appended when it reaches the scan. *)
Definition locked_events (id : nat) : list event :=
  [EvKzalloc true;
   EvMutexAlloc NFP_RESOURCE_TBL_TARGET NFP_RESOURCE_TBL_BASE
                NFP_RESOURCE_TBL_KEY (Some (device_mutex id));
   EvMutexLock (Some (device_mutex id)) 0].

(** Every way a call that holds the device lock can end: the result, and
    the events that follow [locked_events].  [n] is the identity of the
    device mutex. *)
Inductive acquire_outcome (name : list byte) (n : nat)
  : resource_ptr -> list event -> Prop :=
| ScanExhausted :
    acquire_outcome name n (ERR_PTR (- ENOENT))
      (scan_events 0 128
       ++ device_unlock_events (Some (device_mutex n)) ++ [EvKfree])
| ScanShortRead (k : nat) :
    (k < 128)%nat ->
    acquire_outcome name n (ERR_PTR (- EIO))
      (scan_events 0 (S k)
       ++ device_unlock_events (Some (device_mutex n)) ++ [EvKfree])
| EntryLockRefused (k : nat) (m : option nfp_cpp_mutex) :
    (k < 128)%nat ->
    m = None \/
    m = Some (slot_mutex (S n) (resource_key name) (Z.of_nat k)) ->
    mutex_lock_result cpp m <> 0 ->
    acquire_outcome name n (ERR_PTR (mutex_lock_result cpp m))
      (scan_events 0 (S k)
       ++ [EvMutexAlloc NFP_RESOURCE_TBL_TARGET (slot_addr (Z.of_nat k))
                        (resource_key name) m;
           EvMutexLock m (mutex_lock_result cpp m);
           EvMutexFree m]
       ++ device_unlock_events (Some (device_mutex n)) ++ [EvKfree])
| HandleReturned (k : nat) (m : option nfp_cpp_mutex) :
    (k < 128)%nat ->
    m = None \/
    m = Some (slot_mutex (S n) (resource_key name) (Z.of_nat k)) ->
    mutex_lock_result cpp m = 0 ->
    acquire_outcome name n
      (Ptr (fill_resource (named_resource name) (slot_entry (Z.of_nat k)) m))
      (scan_events 0 (S k)
       ++ [EvMutexAlloc NFP_RESOURCE_TBL_TARGET (slot_addr (Z.of_nat k))
                        (resource_key name) m;
           EvMutexLock m 0]
       ++ device_unlock_events (Some (device_mutex n))).

(** What [nfp_resource_release] appends. *)
Definition release_call_events (res : nfp_resource) : list event :=
  [EvMutexUnlock (res_mutex res) (mutex_unlock_result cpp (res_mutex res));
   EvMutexFree (res_mutex res);
   EvKfree].

(** The handle's mutex as a list: empty for a NULL mutex. *)
Definition handle_mutexes (res : nfp_resource) : list nfp_cpp_mutex :=
  match res_mutex res with
  | Some m => [m]
  | None => []
  end.

(** The first characters of a name that can reach the table. *)
Definition name_prefix (name : list byte) : list byte :=
  firstn NFP_RESOURCE_ENTRY_NAME_SZ (c_str name).

(** The [dev_info] line of a registration, if a primary device is bound. *)
Definition register_info (ctx : nfp_mbl_global_data)
  (ops : option nfp_ual_ops) : list mbl_event :=
  match dev_ctx_primary ctx with
  | Some dev => [MblDevInfo dev "registered new UAL, %s" (registered_name ops)]
  | None => []
  end.

Definition unregister_info (ctx : nfp_mbl_global_data) : list mbl_event :=
  match dev_ctx_primary ctx with
  | Some dev =>
      [MblDevInfo dev "unregistered UAL, %s" (name_or_none (ual_ops ctx))]
  | None => []
  end.

(** * Properties *)

(** ** Bytes and strings *)

Lemma byte_val_range (b : byte) : 0 <= byte_val b < 256.
Proof.
  unfold byte_val. pose proof (Byte.to_N_bounded b). lia.
Qed.

Lemma le_bytes_val_range (bs : list byte) :
  0 <= le_bytes_val bs < 256 ^ Z.of_nat (List.length bs).
Proof.
  induction bs as [|b bs IH]; cbn [le_bytes_val].
  - simpl. lia.
  - pose proof (byte_val_range b).
    replace (Z.of_nat (List.length (b :: bs)))
      with (Z.succ (Z.of_nat (List.length bs))) by (simpl List.length; lia).
    rewrite Z.pow_succ_r by lia.
    generalize dependent (256 ^ Z.of_nat (List.length bs)). intros; lia.
Qed.

Lemma load_u32_range (o : byte_order) (buf : list byte) (off : nat) :
  0 <= load_u32 o buf off < 2 ^ 32.
Proof.
  unfold load_u32.
  set (bs := firstn 4 (skipn off buf)).
  assert (Hlen : (List.length bs <= 4)%nat) by apply firstn_le_length.
  assert (Hpow : 256 ^ Z.of_nat (List.length bs) <= 2 ^ 32).
  { change (2 ^ 32) with (256 ^ 4). apply Z.pow_le_mono_r; lia. }
  destruct o.
  - pose proof (le_bytes_val_range bs). lia.
  - pose proof (le_bytes_val_range (rev bs)) as H.
    rewrite length_rev in H. lia.
Qed.

Lemma page_shift_exact (x : Z) :
  0 <= x < 2 ^ 32 -> u64 (Z.shiftl (u64 x) 8) = Z.shiftl x 8.
Proof.
  intros Hx. unfold u64.
  rewrite (Z.mod_small x) by lia.
  rewrite Z.shiftl_mul_pow2 by lia.
  apply Z.mod_small. lia.
Qed.

Lemma strncpy_bytes_length (src : list byte) (n : nat) :
  List.length (strncpy_bytes src n) = n.
Proof.
  revert src. induction n as [|n IH]; intros src; simpl.
  - reflexivity.
  - destruct src as [|c src].
    + simpl. now rewrite IH.
    + destruct (Byte.eqb c x00); simpl; now rewrite IH.
Qed.

Lemma strncpy_bytes_nil (n : nat) : strncpy_bytes [] n = repeat x00 n.
Proof.
  induction n as [|n IH]; simpl; [reflexivity | now rewrite IH].
Qed.

Lemma firstn_app_repeat (l : list byte) (n m : nat) :
  (n <= m)%nat ->
  firstn n (l ++ repeat x00 m) = firstn n (l ++ repeat x00 n).
Proof.
  revert l m. induction n as [|n IH]; intros l m Hle.
  - reflexivity.
  - destruct l as [|a l].
    + destruct m as [|m]; [lia|]. simpl. f_equal.
      apply (IH [] m). lia.
    + cbn [app firstn]. f_equal.
      rewrite (IH l m) by lia. symmetry. apply IH. lia.
Qed.

Lemma strncpy_bytes_zero_padded (src : list byte) (n : nat) :
  strncpy_bytes src n = firstn n (c_str src ++ repeat x00 n).
Proof.
  revert src. induction n as [|n IH]; intros src.
  - reflexivity.
  - assert (Hpad : x00 :: strncpy_bytes [] n = firstn (S n) ([] ++ repeat x00 (S n))).
    { rewrite strncpy_bytes_nil. simpl. f_equal.
      symmetry. apply firstn_all2. rewrite repeat_length. lia. }
    destruct src as [|c src]; cbn [strncpy_bytes c_str].
    + exact Hpad.
    + destruct (Byte.eqb c x00).
      * exact Hpad.
      * rewrite IH. cbn [app firstn]. f_equal.
        symmetry. apply firstn_app_repeat. lia.
Qed.

Lemma resource_name_pad_zero_padded (name : list byte) :
  resource_name_pad name = zero_padded name.
Proof.
  unfold resource_name_pad, strncpy, zero_padded.
  rewrite skipn_all2 by (rewrite repeat_length; lia).
  rewrite app_nil_r. apply strncpy_bytes_zero_padded.
Qed.

Lemma zero_padded_length (name : list byte) :
  List.length (zero_padded name) = NFP_RESOURCE_ENTRY_NAME_SZ.
Proof.
  rewrite <- resource_name_pad_zero_padded.
  unfold resource_name_pad, strncpy.
  rewrite skipn_all2 by (rewrite repeat_length; lia).
  rewrite app_nil_r. apply strncpy_bytes_length.
Qed.

Lemma memcmp_zero_iff (a b : list byte) (n : nat) :
  (n <= List.length a)%nat -> (n <= List.length b)%nat ->
  memcmp a b n = 0 <-> firstn n a = firstn n b.
Proof.
  revert a b. induction n as [|n IH]; intros a b Ha Hb.
  - destruct a, b; simpl; split; reflexivity.
  - destruct a as [|x a]; [simpl in Ha; lia|].
    destruct b as [|y b]; [simpl in Hb; lia|].
    simpl in Ha, Hb. cbn [memcmp firstn].
    destruct (Byte.eqb x y) eqn:Hxy.
    + apply Byte.byte_dec_bl in Hxy. subst y.
      rewrite (IH a b) by lia.
      split; intros H; [now f_equal | now injection H].
    + apply Byte.eqb_false in Hxy.
      split; intros H.
      * exfalso. apply Hxy.
        assert (Hn : Byte.to_N x = Byte.to_N y) by (unfold byte_val in H; lia).
        pose proof (Byte.of_to_N x) as Hx. pose proof (Byte.of_to_N y) as Hy.
        rewrite Hn in Hx. congruence.
      * injection H as Hx _. contradiction.
Qed.

(** ** Key derivation *)

Lemma tbl_name_padded_length :
  List.length tbl_name_padded = NFP_RESOURCE_ENTRY_NAME_SZ.
Proof.
  unfold tbl_name_padded. rewrite length_firstn, length_app, repeat_length.
  unfold NFP_RESOURCE_ENTRY_NAME_SZ. lia.
Qed.

Lemma resource_key_rule (name : list byte) :
  resource_key name =
  if list_eq_dec Byte.byte_eq_dec (zero_padded name) tbl_name_padded
  then u32 NFP_RESOURCE_TBL_KEY
  else u32 (crc32_posix (zero_padded name)).
Proof.
  unfold resource_key. rewrite resource_name_pad_zero_padded.
  pose proof (zero_padded_length name) as Hlen.
  assert (Hcmp : memcmp (zero_padded name)
                        (NFP_RESOURCE_TBL_NAME ++ repeat x00 8) 8 = 0
                 <-> zero_padded name = tbl_name_padded).
  { rewrite memcmp_zero_iff.
    - unfold tbl_name_padded.
      rewrite (firstn_all2 (n := 8) (zero_padded name)); [reflexivity|].
      rewrite Hlen. unfold NFP_RESOURCE_ENTRY_NAME_SZ. lia.
    - rewrite Hlen. unfold NFP_RESOURCE_ENTRY_NAME_SZ. lia.
    - rewrite length_app, repeat_length. lia. }
  destruct (list_eq_dec Byte.byte_eq_dec (zero_padded name) tbl_name_padded)
    as [Heq|Hne].
  - apply Hcmp in Heq. rewrite Heq. reflexivity.
  - destruct (Z.eqb_spec (memcmp (zero_padded name)
                            (NFP_RESOURCE_TBL_NAME ++ repeat x00 8) 8) 0)
      as [H0|H0].
    + apply Hcmp in H0. contradiction.
    + reflexivity.
Qed.

Lemma u32_range (x : Z) : 0 <= u32 x < 2 ^ 32.
Proof. unfold u32. apply Z.mod_pos_bound. lia. Qed.

(** C3: the key is a function of the eight-byte zero-padded name alone: the
    reserved key when that buffer is the table's own name, the checksum of
    the buffer otherwise; it always exists and fits 32 bits; and, unless the
    two padded names collide under the checksum, two names get the same key
    exactly when their padded forms are equal. *)
Theorem resource_key_of_padded_name (n1 n2 : list byte) :
  ~ checksum_collision (zero_padded n1) (zero_padded n2) ->
  resource_name_pad n1 = zero_padded n1 /\
  resource_key n1 =
    (if list_eq_dec Byte.byte_eq_dec (zero_padded n1) tbl_name_padded
     then u32 NFP_RESOURCE_TBL_KEY
     else u32 (crc32_posix (zero_padded n1))) /\
  0 <= resource_key n1 < 2 ^ 32 /\
  (resource_key n1 = resource_key n2 <-> zero_padded n1 = zero_padded n2).
Proof.
  intros Hcol.
  split; [apply resource_name_pad_zero_padded|].
  split; [apply resource_key_rule|].
  split.
  { rewrite resource_key_rule.
    destruct (list_eq_dec _ _ _); apply u32_range. }
  split.
  - intros Hkey.
    destruct (list_eq_dec Byte.byte_eq_dec (zero_padded n1) (zero_padded n2))
      as [Heq|Hne]; [exact Heq|].
    exfalso. apply Hcol. split; [exact Hne|].
    rewrite !resource_key_rule in Hkey.
    destruct (list_eq_dec Byte.byte_eq_dec (zero_padded n1) tbl_name_padded)
      as [H1|H1];
    destruct (list_eq_dec Byte.byte_eq_dec (zero_padded n2) tbl_name_padded)
      as [H2|H2].
    + congruence.
    + right; right. congruence.
    + right; left. exact Hkey.
    + left. exact Hkey.
  - intros Heq. rewrite !resource_key_rule, Heq. reflexivity.
Qed.

(** ** Running the primitives *)

Lemma world_after_nothing (w : world) : world_after w [] 0 = w.
Proof.
  destruct w as [l n]. unfold world_after. simpl. now rewrite app_nil_r.
Qed.

Lemma world_after_after (w : world) (a b : list event) (j k : nat) :
  world_after (world_after w a j) b k = world_after w (a ++ b) (k + j).
Proof.
  unfold world_after. simpl. f_equal.
  - now rewrite app_assoc.
  - lia.
Qed.

Lemma events_since_world_after (w : world) (tr : list event) (k : nat) :
  events_since w (world_after w tr k) = tr.
Proof.
  unfold events_since, world_after. simpl.
  rewrite skipn_app, skipn_all, Nat.sub_diag. reflexivity.
Qed.

Lemma emit_run (e : event) (w : world) : emit e w = (tt, world_after w [e] 0).
Proof. reflexivity. Qed.

Lemma kzalloc_run (w : world) :
  kzalloc_ok = true ->
  kzalloc w =
  (Some {| res_name := repeat x00 (NFP_RESOURCE_ENTRY_NAME_SZ + 1);
           res_cpp_id := 0; res_addr := 0; res_size := 0;
           res_mutex := None |},
   world_after w [EvKzalloc true] 0).
Proof.
  intros H. unfold kzalloc, bind, ret. rewrite H. reflexivity.
Qed.

Lemma mutex_alloc_run (target address key : Z) (w : world) :
  nfp_cpp_mutex_alloc target address key w =
  if mutex_alloc_ok cpp target address key
  then
    let m := Some {| mx_id := next_id w; mx_target := target;
                     mx_address := address; mx_key := key |} in
    (m, world_after w [EvMutexAlloc target address key m] 1)
  else (None, world_after w [EvMutexAlloc target address key None] 0).
Proof.
  unfold nfp_cpp_mutex_alloc.
  destruct (mutex_alloc_ok cpp target address key); reflexivity.
Qed.

Lemma mutex_lock_run (m : option nfp_cpp_mutex) (w : world) :
  nfp_cpp_mutex_lock m w =
  (mutex_lock_result cpp m,
   world_after w [EvMutexLock m (mutex_lock_result cpp m)] 0).
Proof. reflexivity. Qed.

Lemma mutex_unlock_run (m : option nfp_cpp_mutex) (w : world) :
  nfp_cpp_mutex_unlock m w =
  (mutex_unlock_result cpp m,
   world_after w [EvMutexUnlock m (mutex_unlock_result cpp m)] 0).
Proof. reflexivity. Qed.

Lemma mutex_free_run (m : option nfp_cpp_mutex) (w : world) :
  nfp_cpp_mutex_free m w = (tt, world_after w [EvMutexFree m] 0).
Proof. reflexivity. Qed.

Lemma device_lock_run (w : world) :
  device_lock_granted w ->
  nfp_device_lock w =
  (Some (device_mutex (next_id w)),
   world_after w
     [EvMutexAlloc NFP_RESOURCE_TBL_TARGET NFP_RESOURCE_TBL_BASE
                   NFP_RESOURCE_TBL_KEY (Some (device_mutex (next_id w)));
      EvMutexLock (Some (device_mutex (next_id w))) 0] 1).
Proof.
  intros [Halloc Hlock].
  unfold nfp_device_lock, bind.
  rewrite mutex_alloc_run, Halloc. cbn [fst snd].
  rewrite mutex_lock_run. cbn [fst snd].
  fold (device_mutex (next_id w)).
  rewrite Hlock. cbn [Z.eqb negb]. unfold ret.
  rewrite world_after_after. reflexivity.
Qed.

Lemma device_unlock_run (m : option nfp_cpp_mutex) (w : world) :
  nfp_device_unlock m w = (tt, world_after w (device_unlock_events m) 0).
Proof.
  unfold nfp_device_unlock, nfp_cpp_mutex_unlock, nfp_err, bind, ret,
    device_unlock_events.
  cbn [fst snd].
  destruct (negb (mutex_unlock_result cpp m =? 0));
    rewrite !emit_run, ?mutex_free_run; cbn [fst snd];
    rewrite ?mutex_free_run, ?world_after_after; reflexivity.
Qed.

(** ** The scan *)

Lemma find_loop_step (key : Z) (res : nfp_resource) (n : nat) (i : Z)
  (w : world) :
  resource_find_loop tbl_cpp_id key res (S n) i w =
  let w1 := world_after w [EvRead tbl_cpp_id (slot_addr i)
                                  sizeof_nfp_resource_entry
                                  (fst (slot_read i))] 0 in
  if negb (fst (slot_read i) =? sizeof_nfp_resource_entry)
  then ((- EIO, res), w1)
  else if negb (slot_key i =? key)
  then resource_find_loop tbl_cpp_id key res n (i + 1) w1
  else
    let r := nfp_cpp_mutex_alloc NFP_RESOURCE_TBL_TARGET (slot_addr i) key w1 in
    ((0, fill_resource res (slot_entry i) (fst r)), snd r).
Proof.
  change (resource_find_loop tbl_cpp_id key res (S n) i w) with
    ((if negb (fst (slot_read i) =? sizeof_nfp_resource_entry)
      then ret (- EIO, res)
      else if negb (slot_key i =? key)
      then resource_find_loop tbl_cpp_id key res n (i + 1)
      else (mutex <- nfp_cpp_mutex_alloc NFP_RESOURCE_TBL_TARGET
                                         (slot_addr i) key ;;
            ret (0, fill_resource res (slot_entry i) mutex)))
       (world_after w [EvRead tbl_cpp_id (slot_addr i)
                              sizeof_nfp_resource_entry
                              (fst (slot_read i))] 0)).
  cbv zeta.
  destruct (negb (fst (slot_read i) =? sizeof_nfp_resource_entry));
    [reflexivity|].
  destruct (negb (slot_key i =? key)); reflexivity.
Qed.

Lemma scan_events_app (i : Z) (k : nat) :
  scan_events i (S k) =
  scan_events i k
  ++ [EvRead tbl_cpp_id (slot_addr (i + Z.of_nat k)) sizeof_nfp_resource_entry
             (fst (slot_read (i + Z.of_nat k)))].
Proof.
  revert i. induction k as [|k IH]; intros i.
  - cbn [scan_events app Z.of_nat]. now rewrite Z.add_0_r.
  - change (scan_events i (S (S k)))
      with (EvRead tbl_cpp_id (slot_addr i) sizeof_nfp_resource_entry
                   (fst (slot_read i)) :: scan_events (i + 1) (S k)).
    rewrite IH. cbn [scan_events app].
    replace (i + 1 + Z.of_nat k) with (i + Z.of_nat (S k)) by lia.
    reflexivity.
Qed.

(** Slots that come back whole under another key are stepped over, one read
    each. *)
Lemma find_loop_skip (key : Z) (res : nfp_resource) (k n : nat) (i : Z)
  (w : world) :
  (forall j, (j < k)%nat -> slot_passed key (i + Z.of_nat j)) ->
  resource_find_loop tbl_cpp_id key res (k + n) i w =
  resource_find_loop tbl_cpp_id key res n (i + Z.of_nat k)
                     (world_after w (scan_events i k) 0).
Proof.
  revert i w. induction k as [|k IH]; intros i w Hpass.
  - cbn [Nat.add scan_events Z.of_nat].
    now rewrite Z.add_0_r, world_after_nothing.
  - cbn [Nat.add]. rewrite find_loop_step. cbv zeta.
    destruct (Hpass 0%nat ltac:(lia)) as [Hfull Hkey].
    cbn [Z.of_nat] in Hfull, Hkey. rewrite Z.add_0_r in Hfull, Hkey.
    apply Z.eqb_eq in Hfull. apply Z.eqb_neq in Hkey.
    rewrite Hfull, Hkey. cbn [negb].
    rewrite IH.
    + rewrite world_after_after. cbn [Nat.add app scan_events].
      replace (i + 1 + Z.of_nat k) with (i + Z.of_nat (S k)) by lia.
      reflexivity.
    + intros j Hj.
      replace (i + 1 + Z.of_nat j) with (i + Z.of_nat (S j)) by lia.
      apply Hpass. lia.
Qed.

(** Every run of the scan ends in one of three ways, after reading a prefix
    of the table slot by slot. *)
Lemma find_loop_outcome (key : Z) (res : nfp_resource) (n : nat) (i : Z)
  (w : world) :
  resource_find_loop tbl_cpp_id key res n i w
    = ((- ENOENT, res), world_after w (scan_events i n) 0)
  \/ (exists k, (k < n)%nat /\
       resource_find_loop tbl_cpp_id key res n i w
         = ((- EIO, res), world_after w (scan_events i (S k)) 0))
  \/ (exists k, (k < n)%nat /\
       resource_find_loop tbl_cpp_id key res n i w
         = ((0, fill_resource res (slot_entry (i + Z.of_nat k)) None),
            world_after w
              (scan_events i (S k)
               ++ [EvMutexAlloc NFP_RESOURCE_TBL_TARGET
                     (slot_addr (i + Z.of_nat k)) key None]) 0))
  \/ (exists k m, (k < n)%nat /\
       m = slot_mutex (next_id w) key (i + Z.of_nat k) /\
       resource_find_loop tbl_cpp_id key res n i w
         = ((0, fill_resource res (slot_entry (i + Z.of_nat k)) (Some m)),
            world_after w
              (scan_events i (S k)
               ++ [EvMutexAlloc NFP_RESOURCE_TBL_TARGET
                     (slot_addr (i + Z.of_nat k)) key (Some m)]) 1)).
Proof.
  revert i w. induction n as [|n IH]; intros i w.
  - left. cbn [resource_find_loop scan_events]. unfold ret.
    now rewrite world_after_nothing.
  - rewrite find_loop_step. cbv zeta.
    destruct (negb (fst (slot_read i) =? sizeof_nfp_resource_entry)).
    { right; left. exists 0%nat. split; [lia | reflexivity]. }
    destruct (negb (slot_key i =? key)).
    + destruct (IH (i + 1)
                  (world_after w [EvRead tbl_cpp_id (slot_addr i)
                                    sizeof_nfp_resource_entry
                                    (fst (slot_read i))] 0))
        as [H | [[k [Hk H]] | [[k [Hk H]] | [k [m [Hk [Hm H]]]]]]];
        rewrite H, world_after_after.
      * left. reflexivity.
      * right; left. exists (S k). split; [lia | reflexivity].
      * right; right; left. exists (S k). split; [lia|].
        replace (i + Z.of_nat (S k)) with (i + 1 + Z.of_nat k) by lia.
        reflexivity.
      * right; right; right. exists (S k), m. split; [lia|]. split.
        -- rewrite Hm.
           replace (i + Z.of_nat (S k)) with (i + 1 + Z.of_nat k) by lia.
           reflexivity.
        -- replace (i + Z.of_nat (S k)) with (i + 1 + Z.of_nat k) by lia.
           reflexivity.
    + rewrite mutex_alloc_run.
      destruct (mutex_alloc_ok cpp NFP_RESOURCE_TBL_TARGET (slot_addr i) key).
      * right; right; right.
        exists 0%nat, (slot_mutex (next_id w) key i).
        cbn [Z.of_nat]. rewrite Z.add_0_r. split; [lia|]. split; [reflexivity|].
        cbv zeta. cbn [fst snd]. rewrite world_after_after. reflexivity.
      * right; right; left. exists 0%nat.
        cbn [Z.of_nat]. rewrite Z.add_0_r. split; [lia|].
        cbn [fst snd]. rewrite world_after_after. reflexivity.
Qed.

(** ** Running nfp_resource_acquire *)

Lemma table_entries_count : Z.to_nat NFP_RESOURCE_TBL_ENTRIES = 128%nat.
Proof. reflexivity. Qed.

Lemma resource_find_run (name : list byte) (res : nfp_resource) (w : world) :
  nfp_cpp_resource_find name res w =
  resource_find_loop tbl_cpp_id (resource_key name) res 128 0 w.
Proof. reflexivity. Qed.

Lemma err_free_res_run (err : Z) (w : world) :
  err_free_res err w = (ERR_PTR err, world_after w [EvKfree] 0).
Proof. reflexivity. Qed.

Lemma err_unlock_dev_run (d : option nfp_cpp_mutex) (err : Z) (w : world) :
  err_unlock_dev d err w =
  (ERR_PTR err, world_after w (device_unlock_events d ++ [EvKfree]) 0).
Proof.
  unfold err_unlock_dev, bind. rewrite device_unlock_run. cbn [fst snd].
  rewrite err_free_res_run, world_after_after. reflexivity.
Qed.

Lemma err_res_mutex_free_run (res : nfp_resource) (d : option nfp_cpp_mutex)
  (err : Z) (w : world) :
  err_res_mutex_free res d err w =
  (ERR_PTR err,
   world_after w
     (EvMutexFree (res_mutex res) :: device_unlock_events d ++ [EvKfree]) 0).
Proof.
  unfold err_res_mutex_free, bind. rewrite mutex_free_run. cbn [fst snd].
  rewrite err_unlock_dev_run, world_after_after. reflexivity.
Qed.

(** With memory for the handle and the device lock granted, the call becomes
    the scan followed by the per-entry lock and one of the two exits. *)
Lemma acquire_locked_run (name : list byte) (w : world) :
  kzalloc_ok = true ->
  device_lock_granted w ->
  nfp_resource_acquire name w =
  let d := Some (device_mutex (next_id w)) in
  let found :=
    nfp_cpp_resource_find name (named_resource name)
      (world_after w (locked_events (next_id w)) 1) in
  if negb (fst (fst found) =? 0)
  then err_unlock_dev d (fst (fst found)) (snd found)
  else
    let l := nfp_cpp_mutex_lock (res_mutex (snd (fst found))) (snd found) in
    if negb (fst l =? 0)
    then err_res_mutex_free (snd (fst found)) d (fst l) (snd l)
    else (Ptr (snd (fst found)), snd (nfp_device_unlock d (snd l))).
Proof.
  intros Hkz Hdev.
  unfold nfp_resource_acquire. unfold bind at 1.
  rewrite (kzalloc_run w Hkz). cbn [fst snd].
  unfold bind at 1.
  assert (Hdev' : device_lock_granted (world_after w [EvKzalloc true] 0))
    by exact Hdev.
  rewrite (device_lock_run _ Hdev'). cbn [fst snd].
  rewrite world_after_after.
  change (next_id (world_after w [EvKzalloc true] 0)) with (next_id w).
  change ([EvKzalloc true] ++
          [EvMutexAlloc NFP_RESOURCE_TBL_TARGET NFP_RESOURCE_TBL_BASE
             NFP_RESOURCE_TBL_KEY (Some (device_mutex (next_id w)));
           EvMutexLock (Some (device_mutex (next_id w))) 0])
    with (locked_events (next_id w)).
  change (1 + 0)%nat with 1%nat.
  unfold bind at 1. cbv zeta.
  change (set_res_name _ _) with (named_resource name).
  destruct (negb (fst (fst (nfp_cpp_resource_find name (named_resource name)
                 (world_after w (locked_events (next_id w)) 1))) =? 0));
    [reflexivity|].
  unfold bind at 1.
  destruct (negb (fst (nfp_cpp_mutex_lock _ _) =? 0)); reflexivity.
Qed.

(** ** What the log shows *)

Lemma read_addrs_app (a b : list event) :
  read_addrs (a ++ b) = read_addrs a ++ read_addrs b.
Proof.
  induction a as [|e a IH]; [reflexivity|].
  destruct e; cbn [app read_addrs]; rewrite ?IH; reflexivity.
Qed.

Lemma read_addrs_scan (i : Z) (k : nat) :
  read_addrs (scan_events i k) = slot_addrs i k.
Proof.
  revert i. induction k as [|k IH]; intros i; [reflexivity|].
  cbn [scan_events read_addrs slot_addrs]. now rewrite IH.
Qed.

Lemma read_addrs_device_unlock (m : option nfp_cpp_mutex) :
  read_addrs (device_unlock_events m) = [].
Proof.
  unfold device_unlock_events.
  destruct (negb (mutex_unlock_result cpp m =? 0)); reflexivity.
Qed.

Lemma slot_addrs_length (i : Z) (k : nat) : List.length (slot_addrs i k) = k.
Proof.
  revert i. induction k as [|k IH]; intros i; [reflexivity|].
  cbn [slot_addrs List.length]. now rewrite IH.
Qed.

Lemma slots_passed_check (key : Z) (n : nat) :
  forallb (fun j => slot_passedb key (Z.of_nat j)) (seq 0 n) = true ->
  forall j, 0 <= j < Z.of_nat n -> slot_passed key j.
Proof.
  intros Hall j Hj.
  rewrite forallb_forall in Hall.
  specialize (Hall (Z.to_nat j)).
  rewrite Z2Nat.id in Hall by lia.
  assert (Hin : In (Z.to_nat j) (seq 0 n)) by (apply in_seq; lia).
  apply Hall in Hin. unfold slot_passedb in Hin.
  apply andb_true_iff in Hin. destruct Hin as [Hfull Hkey].
  split.
  - now apply Z.eqb_eq.
  - apply Z.eqb_neq. now destruct (slot_key j =? key).
Qed.

Lemma slots_passed_nat (key k : Z) :
  (forall j, 0 <= j < k -> slot_passed key j) ->
  forall j, (j < Z.to_nat k)%nat -> slot_passed key (0 + Z.of_nat j).
Proof.
  intros H j Hj. apply H. lia.
Qed.

(** ** The scan inside nfp_resource_acquire *)

(** C2 (amended): the table is 4096 bytes of 32-byte entries, 128 slots in
    all, and the scan visits each of them: when the handle is allocated, the
    device lock is granted and every slot reads back whole under a key other
    than the one derived from the name, the call fails with ENOENT after
    exactly 128 reads, one per slot, in index order. *)
Theorem scan_visits_all_128_slots (name : list byte) (w : world) :
  kzalloc_ok = true ->
  device_lock_granted w ->
  (forall j, 0 <= j < NFP_RESOURCE_TBL_ENTRIES ->
             slot_passed (resource_key name) j) ->
  NFP_RESOURCE_TBL_SIZE = 4096 /\
  sizeof_nfp_resource_entry = 32 /\
  NFP_RESOURCE_TBL_ENTRIES = 128 /\
  fst (nfp_resource_acquire name w) = ERR_PTR (- ENOENT) /\
  read_addrs (acquire_events name w) = slot_addrs 0 128 /\
  List.length (read_addrs (acquire_events name w)) = 128%nat.
Proof.
  intros Hkz Hdev Hpass.
  do 3 (split; [reflexivity|]).
  assert (Hrun : nfp_resource_acquire name w =
                 (ERR_PTR (- ENOENT),
                  world_after w
                    (locked_events (next_id w) ++ scan_events 0 128 ++
                     device_unlock_events (Some (device_mutex (next_id w))) ++
                     [EvKfree]) 1)).
  { rewrite (acquire_locked_run name w Hkz Hdev). cbv zeta.
    rewrite resource_find_run.
    change 128%nat with (128 + 0)%nat at 1 2 3.
    rewrite (find_loop_skip (resource_key name) (named_resource name) 128 0 0)
      by (intros j Hj; apply Hpass;
          change NFP_RESOURCE_TBL_ENTRIES with 128; lia).
    cbn [resource_find_loop]. unfold ret. cbn [fst snd].
    change (negb (- ENOENT =? 0)) with true. cbv iota.
    rewrite err_unlock_dev_run, !world_after_after. reflexivity. }
  unfold acquire_events. rewrite Hrun. cbn [fst snd].
  rewrite events_since_world_after.
  assert (Hreads : read_addrs
                     (locked_events (next_id w) ++ scan_events 0 128 ++
                      device_unlock_events (Some (device_mutex (next_id w))) ++
                      [EvKfree]) = slot_addrs 0 128).
  { rewrite !read_addrs_app, read_addrs_scan, read_addrs_device_unlock.
    cbn [locked_events read_addrs app]. now rewrite app_nil_r. }
  split; [reflexivity|]. split; [exact Hreads|].
  rewrite Hreads. apply slot_addrs_length.
Qed.

(** C4: when the handle is allocated, the device lock is granted and the scan
    reaches slot [k], a read of slot [k] that returns fewer bytes than one
    entry ends the call with EIO (not ENOENT, not a handle), and the reads
    issued are those of slots 0 to [k] and no other. *)
Theorem short_read_aborts_scan (name : list byte) (w : world) (k : Z) :
  kzalloc_ok = true ->
  device_lock_granted w ->
  0 <= k < NFP_RESOURCE_TBL_ENTRIES ->
  (forall j, 0 <= j < k -> slot_passed (resource_key name) j) ->
  fst (slot_read k) < sizeof_nfp_resource_entry ->
  fst (nfp_resource_acquire name w) = ERR_PTR (- EIO) /\
  read_addrs (acquire_events name w) = slot_addrs 0 (S (Z.to_nat k)) /\
  List.length (read_addrs (acquire_events name w)) = S (Z.to_nat k).
Proof.
  intros Hkz Hdev Hk Hpass Hshort.
  assert (Hrun : nfp_resource_acquire name w =
                 (ERR_PTR (- EIO),
                  world_after w
                    (locked_events (next_id w) ++
                     scan_events 0 (S (Z.to_nat k)) ++
                     device_unlock_events (Some (device_mutex (next_id w))) ++
                     [EvKfree]) 1)).
  { rewrite (acquire_locked_run name w Hkz Hdev). cbv zeta.
    rewrite resource_find_run.
    assert (Hn : 128%nat = (Z.to_nat k + S (127 - Z.to_nat k))%nat).
    { change NFP_RESOURCE_TBL_ENTRIES with 128 in Hk. lia. }
    rewrite Hn.
    rewrite (find_loop_skip (resource_key name) (named_resource name)
               (Z.to_nat k) (S (127 - Z.to_nat k)) 0)
      by (apply slots_passed_nat; exact Hpass).
    rewrite find_loop_step. cbv zeta.
    replace (0 + Z.of_nat (Z.to_nat k)) with k by lia.
    assert (Hne : (fst (slot_read k) =? sizeof_nfp_resource_entry) = false)
      by (apply Z.eqb_neq; lia).
    rewrite Hne. cbn [negb fst snd].
    change (negb (- EIO =? 0)) with true. cbv iota.
    rewrite err_unlock_dev_run, !world_after_after.
    rewrite (scan_events_app 0 (Z.to_nat k)).
    replace (0 + Z.of_nat (Z.to_nat k)) with k by lia.
    rewrite <- !app_assoc. reflexivity. }
  unfold acquire_events. rewrite Hrun. cbn [fst snd].
  rewrite events_since_world_after.
  assert (Hreads : read_addrs
                     (locked_events (next_id w) ++
                      scan_events 0 (S (Z.to_nat k)) ++
                      device_unlock_events (Some (device_mutex (next_id w))) ++
                      [EvKfree]) = slot_addrs 0 (S (Z.to_nat k))).
  { rewrite !read_addrs_app, read_addrs_scan, read_addrs_device_unlock.
    cbn [locked_events read_addrs app]. now rewrite app_nil_r. }
  split; [reflexivity|]. split; [exact Hreads|].
  rewrite Hreads. apply slot_addrs_length.
Qed.

(** C1: when the handle is allocated, the device lock is granted, the slots
    before [k] read back whole under other keys, slot [k] reads back whole
    under the key derived from the name, and its mutex is allocated and
    locked, the call returns a handle built from slot [k], the first match:
    cpp_id packs the entry's target, action and token, the address is
    page_offset shifted left by 8 and the size is page_size shifted left
    by 8; the handle carries the mutex of slot [k]. *)
Theorem acquire_returns_first_match (name : list byte) (w : world) (k : Z) :
  kzalloc_ok = true ->
  device_lock_granted w ->
  0 <= k < NFP_RESOURCE_TBL_ENTRIES ->
  (forall j, 0 <= j < k -> slot_passed (resource_key name) j) ->
  fst (slot_read k) = sizeof_nfp_resource_entry ->
  slot_key k = resource_key name ->
  mutex_alloc_ok cpp NFP_RESOURCE_TBL_TARGET (slot_addr k) (resource_key name)
    = true ->
  mutex_lock_result cpp
    (Some (slot_mutex (S (next_id w)) (resource_key name) k)) = 0 ->
  exists res,
    fst (nfp_resource_acquire name w) = Ptr res /\
    nfp_resource_cpp_id res =
      u32 (NFP_CPP_ID (region_cpp_target (entry_region (slot_entry k)))
                      (region_cpp_action (entry_region (slot_entry k)))
                      (region_cpp_token (entry_region (slot_entry k)))) /\
    nfp_resource_address res =
      Z.shiftl (region_page_offset (entry_region (slot_entry k))) 8 /\
    nfp_resource_size res =
      Z.shiftl (region_page_size (entry_region (slot_entry k))) 8 /\
    res_mutex res = Some (slot_mutex (S (next_id w)) (resource_key name) k).
Proof.
  intros Hkz Hdev Hk Hpass Hfull Hkey Halloc Hlock.
  exists (fill_resource (named_resource name) (slot_entry k)
            (Some (slot_mutex (S (next_id w)) (resource_key name) k))).
  split.
  - rewrite (acquire_locked_run name w Hkz Hdev). cbv zeta.
    rewrite resource_find_run.
    assert (Hn : 128%nat = (Z.to_nat k + S (127 - Z.to_nat k))%nat).
    { change NFP_RESOURCE_TBL_ENTRIES with 128 in Hk. lia. }
    rewrite Hn.
    rewrite (find_loop_skip (resource_key name) (named_resource name)
               (Z.to_nat k) (S (127 - Z.to_nat k)) 0)
      by (apply slots_passed_nat; exact Hpass).
    rewrite find_loop_step. cbv zeta.
    replace (0 + Z.of_nat (Z.to_nat k)) with k by lia.
    apply Z.eqb_eq in Hfull. apply Z.eqb_eq in Hkey.
    rewrite Hfull, Hkey. cbn [negb].
    rewrite mutex_alloc_run, Halloc. cbv zeta. cbn [fst snd].
    rewrite !world_after_after. cbn [next_id world_after Nat.add].
    cbn [Z.eqb negb]. cbn [fill_resource res_mutex].
    rewrite mutex_lock_run. cbn [fst snd].
    unfold slot_mutex in Hlock. rewrite Hlock.
    reflexivity.
  - unfold nfp_resource_cpp_id, nfp_resource_address, nfp_resource_size.
    cbn [fill_resource res_cpp_id res_addr res_size res_mutex].
    split; [reflexivity|].
    split; [apply page_shift_exact, load_u32_range|].
    split; [apply page_shift_exact, load_u32_range|].
    reflexivity.
Qed.

(** ** The name kept in the handle *)

Lemma c_str_strncpy_nul (src rest : list byte) (n : nat) :
  c_str (strncpy_bytes src n ++ x00 :: rest) = firstn n (c_str src).
Proof.
  revert src. induction n as [|n IH]; intros src.
  - reflexivity.
  - destruct src as [|c src]; cbn [strncpy_bytes c_str app].
    + reflexivity.
    + destruct (Byte.eqb c x00) eqn:Hc; cbn [app c_str firstn].
      * reflexivity.
      * rewrite Hc, IH. reflexivity.
Qed.

Lemma named_resource_name (name : list byte) :
  res_name (named_resource name)
  = strncpy_bytes name NFP_RESOURCE_ENTRY_NAME_SZ ++ [x00].
Proof. reflexivity. Qed.

Lemma device_lock_refused (w : world) :
  mutex_alloc_ok cpp NFP_RESOURCE_TBL_TARGET NFP_RESOURCE_TBL_BASE
                 NFP_RESOURCE_TBL_KEY = false \/
  mutex_lock_result cpp (Some (device_mutex (next_id w))) <> 0 ->
  fst (nfp_device_lock w) = None.
Proof.
  intros H. unfold nfp_device_lock. unfold bind at 1.
  rewrite mutex_alloc_run.
  destruct (mutex_alloc_ok cpp NFP_RESOURCE_TBL_TARGET NFP_RESOURCE_TBL_BASE
              NFP_RESOURCE_TBL_KEY); [|reflexivity].
  destruct H as [H | H]; [discriminate|].
  cbv zeta. cbn [fst snd]. unfold bind at 1.
  rewrite mutex_lock_run. cbn [fst snd].
  fold (device_mutex (next_id w)).
  apply Z.eqb_neq in H. rewrite H. reflexivity.
Qed.

Lemma acquire_without_device_lock (name : list byte) (w : world) :
  kzalloc_ok = false \/
  mutex_alloc_ok cpp NFP_RESOURCE_TBL_TARGET NFP_RESOURCE_TBL_BASE
                 NFP_RESOURCE_TBL_KEY = false \/
  mutex_lock_result cpp (Some (device_mutex (next_id w))) <> 0 ->
  fst (nfp_resource_acquire name w) = ERR_PTR (- ENOMEM).
Proof.
  intros H. unfold nfp_resource_acquire. unfold bind at 1.
  destruct kzalloc_ok eqn:Hkz.
  - destruct H as [H | H]; [discriminate|].
    rewrite (kzalloc_run w Hkz). cbn [fst snd]. unfold bind at 1.
    rewrite (device_lock_refused (world_after w [EvKzalloc true] 0) H).
    reflexivity.
  - unfold kzalloc, bind, ret. rewrite Hkz. reflexivity.
Qed.

(** The handle that comes back carries the name written before the scan. *)
Lemma acquire_keeps_name (name : list byte) (w : world) (res : nfp_resource) :
  fst (nfp_resource_acquire name w) = Ptr res ->
  res_name res = res_name (named_resource name).
Proof.
  intros Hres.
  destruct kzalloc_ok eqn:Hkz.
  2:{ rewrite acquire_without_device_lock in Hres by (left; exact Hkz).
      discriminate. }
  destruct (mutex_alloc_ok cpp NFP_RESOURCE_TBL_TARGET NFP_RESOURCE_TBL_BASE
              NFP_RESOURCE_TBL_KEY) eqn:Halloc.
  2:{ rewrite acquire_without_device_lock in Hres by (right; left; exact Halloc).
      discriminate. }
  destruct (Z.eq_dec (mutex_lock_result cpp (Some (device_mutex (next_id w)))) 0)
    as [Hlock|Hlock].
  2:{ rewrite acquire_without_device_lock in Hres by (right; right; exact Hlock).
      discriminate. }
  rewrite (acquire_locked_run name w Hkz (conj Halloc Hlock)) in Hres.
  cbv zeta in Hres. rewrite resource_find_run in Hres.
  destruct (find_loop_outcome (resource_key name) (named_resource name) 128 0
              (world_after w (locked_events (next_id w)) 1))
    as [H | [[k [Hk H]] | [[k [Hk H]] | [k [m [Hk [Hm H]]]]]]];
    rewrite H in Hres; cbn [fst snd] in Hres.
  - change (negb (- ENOENT =? 0)) with true in Hres. cbv iota in Hres.
    rewrite err_unlock_dev_run in Hres. discriminate.
  - change (negb (- EIO =? 0)) with true in Hres. cbv iota in Hres.
    rewrite err_unlock_dev_run in Hres. discriminate.
  - change (negb (0 =? 0)) with false in Hres. cbv iota in Hres.
    destruct (negb (fst (nfp_cpp_mutex_lock _ _) =? 0)).
    + rewrite err_res_mutex_free_run in Hres. discriminate.
    + cbn [fst] in Hres. injection Hres as <-. reflexivity.
  - change (negb (0 =? 0)) with false in Hres. cbv iota in Hres.
    destruct (negb (fst (nfp_cpp_mutex_lock _ _) =? 0)).
    + rewrite err_res_mutex_free_run in Hres. discriminate.
    + cbn [fst] in Hres. injection Hres as <-. reflexivity.
Qed.

(** C10: whatever the caller passes as the name, a handle that comes back
    holds a nine-byte name buffer whose last byte is NUL, so the accessor
    yields a terminated string: its characters are the first eight (at most)
    of the caller's name and nothing read from the device. *)
Theorem resource_name_terminated (name : list byte) (w : world)
  (res : nfp_resource) :
  fst (nfp_resource_acquire name w) = Ptr res ->
  List.length (nfp_resource_name res) = 9%nat /\
  nth 8 (nfp_resource_name res) x01 = x00 /\
  c_str (nfp_resource_name res) = firstn 8 (c_str name) /\
  (List.length (c_str (nfp_resource_name res)) <= 8)%nat.
Proof.
  intros Hres. apply acquire_keeps_name in Hres.
  unfold nfp_resource_name. rewrite Hres, named_resource_name.
  assert (Hlen : List.length (strncpy_bytes name NFP_RESOURCE_ENTRY_NAME_SZ) = 8%nat)
    by apply strncpy_bytes_length.
  split; [rewrite length_app, Hlen; reflexivity|].
  split.
  { rewrite app_nth2 by (rewrite Hlen; lia). rewrite Hlen. reflexivity. }
  rewrite c_str_strncpy_nul.
  split; [reflexivity|].
  apply firstn_le_length.
Qed.

(** ** Unwinding on failure *)

Lemma existsb_scan (p : event -> bool) (i : Z) (k : nat) (t : list event) :
  (forall c a l r, p (EvRead c a l r) = false) ->
  existsb p (scan_events i k ++ t) = existsb p t.
Proof.
  intros Hp. revert i. induction k as [|k IH]; intros i; [reflexivity|].
  cbn [scan_events app existsb]. now rewrite Hp, IH.
Qed.

Lemma count_scan (p : event -> bool) (i : Z) (k : nat) (t : list event) :
  (forall c a l r, p (EvRead c a l r) = false) ->
  count p (scan_events i k ++ t) = count p t.
Proof.
  intros Hp. unfold count. revert i.
  induction k as [|k IH]; intros i; [reflexivity|].
  cbn [scan_events app filter]. now rewrite Hp, IH.
Qed.

Lemma count_cons (p : event -> bool) (e : event) (t : list event) :
  count p (e :: t) = if p e then S (count p t) else count p t.
Proof. unfold count. cbn [filter]. now destruct (p e). Qed.

Lemma count_nil (p : event -> bool) : count p [] = 0%nat.
Proof. reflexivity. Qed.

Lemma outstanding_scan (i : Z) (k : nat) (t : list event) :
  outstanding (scan_events i k ++ t) = outstanding t.
Proof.
  revert i. induction k as [|k IH]; intros i; [reflexivity|].
  cbn [scan_events app outstanding]. apply IH.
Qed.

Lemma held_scan (i : Z) (k : nat) (t : list event) :
  held (scan_events i k ++ t) = held t.
Proof.
  revert i. induction k as [|k IH]; intros i; [reflexivity|].
  cbn [scan_events app held]. apply IH.
Qed.

Lemma eqb_succ_false (n : nat) : Nat.eqb n (S n) = false.
Proof. apply Nat.eqb_neq. lia. Qed.

Lemma eqb_succ_false' (n : nat) : Nat.eqb (S n) n = false.
Proof. apply Nat.eqb_neq. lia. Qed.

(** The events of a failed call that had taken the device lock: the scan,
    then either the exit through [err_unlock_dev], or the allocation and the
    refused lock of the matching slot and the exit through
    [err_res_mutex_free]. *)
Lemma acquire_failure_events (name : list byte) (w : world) (err : Z) :
  kzalloc_ok = true ->
  device_lock_granted w ->
  fst (nfp_resource_acquire name w) = ERR_PTR err ->
  exists (k : nat) (tail : list event),
    acquire_events name w
    = locked_events (next_id w) ++ scan_events 0 k ++ tail
      ++ device_unlock_events (Some (device_mutex (next_id w))) ++ [EvKfree] /\
    ((tail = [] /\ (err = - EIO \/ err = - ENOENT)) \/
     (exists a key,
        tail = [EvMutexAlloc NFP_RESOURCE_TBL_TARGET a key None;
                EvMutexLock None err; EvMutexFree None] /\
        err = mutex_lock_result cpp None /\ err <> 0) \/
     (exists a key m,
        mx_id m = S (next_id w) /\
        tail = [EvMutexAlloc NFP_RESOURCE_TBL_TARGET a key (Some m);
                EvMutexLock (Some m) err; EvMutexFree (Some m)] /\
        err = mutex_lock_result cpp (Some m) /\ err <> 0)).
Proof.
  intros Hkz Hdev Hres. unfold acquire_events.
  rewrite (acquire_locked_run name w Hkz Hdev) in *.
  cbv zeta in *. rewrite resource_find_run in *.
  destruct (find_loop_outcome (resource_key name) (named_resource name) 128 0
              (world_after w (locked_events (next_id w)) 1))
    as [H | [[k [Hk H]] | [[k [Hk H]] | [k [m [Hk [Hm H]]]]]]];
    rewrite H in *; cbn [fst snd] in *.
  - change (negb (- ENOENT =? 0)) with true in *. cbv iota in *.
    rewrite err_unlock_dev_run in *. cbn [fst snd] in *.
    injection Hres as <-.
    exists 128%nat, []. split.
    + rewrite !world_after_after, events_since_world_after. reflexivity.
    + left. split; [reflexivity | right; reflexivity].
  - change (negb (- EIO =? 0)) with true in *. cbv iota in *.
    rewrite err_unlock_dev_run in *. cbn [fst snd] in *.
    injection Hres as <-.
    exists (S k), []. split.
    + rewrite !world_after_after, events_since_world_after. reflexivity.
    + left. split; [reflexivity | left; reflexivity].
  - change (negb (0 =? 0)) with false in *. cbv iota in *.
    cbn [fill_resource res_mutex] in *.
    rewrite mutex_lock_run in *. cbn [fst snd] in *.
    destruct (Z.eqb_spec (mutex_lock_result cpp None) 0) as [H0|H0];
      cbn [negb] in *; [discriminate|].
    rewrite err_res_mutex_free_run in *. cbn [fst snd] in *.
    injection Hres as <-.
    exists (S k), [EvMutexAlloc NFP_RESOURCE_TBL_TARGET
                     (slot_addr (0 + Z.of_nat k)) (resource_key name) None;
                   EvMutexLock None (mutex_lock_result cpp None);
                   EvMutexFree None].
    split.
    + rewrite !world_after_after, events_since_world_after.
      cbn [fill_resource res_mutex]. rewrite <- !app_assoc. reflexivity.
    + right; left. eauto.
  - change (negb (0 =? 0)) with false in *. cbv iota in *.
    cbn [fill_resource res_mutex] in *.
    rewrite mutex_lock_run in *. cbn [fst snd] in *.
    destruct (Z.eqb_spec (mutex_lock_result cpp (Some m)) 0) as [H0|H0];
      cbn [negb] in *; [discriminate|].
    rewrite err_res_mutex_free_run in *. cbn [fst snd] in *.
    injection Hres as <-.
    exists (S k), [EvMutexAlloc NFP_RESOURCE_TBL_TARGET
                     (slot_addr (0 + Z.of_nat k)) (resource_key name) (Some m);
                   EvMutexLock (Some m) (mutex_lock_result cpp (Some m));
                   EvMutexFree (Some m)].
    split.
    + rewrite !world_after_after, events_since_world_after.
      cbn [fill_resource res_mutex]. rewrite <- !app_assoc. reflexivity.
    + right; right. exists (slot_addr (0 + Z.of_nat k)), (resource_key name), m.
      rewrite Hm at 1. cbn [slot_mutex mx_id next_id world_after Nat.add].
      auto.
Qed.

Ltac observe_log :=
  repeat first
    [ progress cbn [locked_events app filter existsb outstanding held
                    List.length is_unlock_of is_free_of is_kfree is_read
                    mutex_eqb mx_id device_mutex negb orb andb Z.eqb]
    | progress unfold mutex_eqb
    | rewrite existsb_scan by reflexivity
    | rewrite count_scan by reflexivity
    | rewrite count_cons
    | rewrite count_nil
    | rewrite outstanding_scan
    | rewrite held_scan
    | rewrite Nat.eqb_refl
    | rewrite eqb_succ_false
    | rewrite eqb_succ_false' ].

(** C5: a call that took the device lock and then fails, through a short
    read, an exhausted scan or a refused per-entry lock, calls unlock on the
    device mutex exactly once and frees it exactly once, leaves no mutex
    allocation without its free and no lock without its unlock, and frees
    the handle as its last step before returning the error. *)
Theorem acquire_failure_unwinds (name : list byte) (w : world) (err : Z) :
  kzalloc_ok = true ->
  device_lock_granted w ->
  fst (nfp_resource_acquire name w) = ERR_PTR err ->
  count (is_unlock_of (device_mutex (next_id w))) (acquire_events name w) = 1%nat /\
  count (is_free_of (device_mutex (next_id w))) (acquire_events name w) = 1%nat /\
  outstanding (acquire_events name w) = [] /\
  held (acquire_events name w) = [] /\
  count is_kfree (acquire_events name w) = 1%nat /\
  last (acquire_events name w) (EvKzalloc true) = EvKfree /\
  (err = - EIO \/ err = - ENOENT \/
   exists m, err = mutex_lock_result cpp m /\ err <> 0).
Proof.
  intros Hkz Hdev Hres.
  destruct (acquire_failure_events name w err Hkz Hdev Hres)
    as [k [tail [Hev Htail]]].
  rewrite Hev. clear Hev.
  destruct Htail as [[-> Herr] | [[a [key [-> [Herr Hne]]]]
                                 | [a [key [m [Hid [-> [Herr Hne]]]]]]]].
  - repeat split.
    all: try (unfold device_unlock_events;
              destruct (negb (mutex_unlock_result cpp _ =? 0));
              observe_log; reflexivity).
    + rewrite !app_assoc. apply last_last.
    + tauto.
  - repeat split.
    all: try (unfold device_unlock_events;
              destruct (negb (mutex_unlock_result cpp _ =? 0));
              observe_log; reflexivity).
    + rewrite !app_assoc. apply last_last.
    + right; right. exists None. auto.
  - destruct m as [mid mt ma mk]. cbn [mx_id] in Hid. subst mid.
    assert (Hz : (err =? 0) = false) by (apply Z.eqb_neq; exact Hne).
    repeat split.
    all: try (unfold device_unlock_events;
              destruct (negb (mutex_unlock_result cpp _ =? 0));
              observe_log; rewrite ?Hz; observe_log; reflexivity).
    + rewrite !app_assoc. apply last_last.
    + right; right. eexists. split; [exact Herr | exact Hne].
Qed.

(** ** The per-entry mutex that could not be allocated *)

(** C6 (the code at the failing input): when the mutex of the matching slot
    cannot be allocated, the scan still reports success with a NULL mutex in
    the handle, and the call goes on to lock that NULL pointer; what comes
    back is whatever the lock primitive answers for NULL, a handle if it
    answers zero, and no ENOMEM is produced for the failed allocation. *)
Theorem entry_mutex_alloc_failure_unchecked (name : list byte) (w : world)
  (k : Z) :
  kzalloc_ok = true ->
  device_lock_granted w ->
  0 <= k < NFP_RESOURCE_TBL_ENTRIES ->
  (forall j, 0 <= j < k -> slot_passed (resource_key name) j) ->
  fst (slot_read k) = sizeof_nfp_resource_entry ->
  slot_key k = resource_key name ->
  mutex_alloc_ok cpp NFP_RESOURCE_TBL_TARGET (slot_addr k) (resource_key name)
    = false ->
  In (EvMutexLock None (mutex_lock_result cpp None)) (acquire_events name w) /\
  fst (nfp_resource_acquire name w) =
    (if mutex_lock_result cpp None =? 0
     then Ptr (fill_resource (named_resource name) (slot_entry k) None)
     else ERR_PTR (mutex_lock_result cpp None)).
Proof.
  intros Hkz Hdev Hk Hpass Hfull Hkey Halloc.
  unfold acquire_events.
  rewrite (acquire_locked_run name w Hkz Hdev). cbv zeta.
  rewrite resource_find_run.
  assert (Hn : 128%nat = (Z.to_nat k + S (127 - Z.to_nat k))%nat).
  { change NFP_RESOURCE_TBL_ENTRIES with 128 in Hk. lia. }
  rewrite Hn.
  rewrite (find_loop_skip (resource_key name) (named_resource name)
             (Z.to_nat k) (S (127 - Z.to_nat k)) 0)
    by (apply slots_passed_nat; exact Hpass).
  rewrite find_loop_step. cbv zeta.
  replace (0 + Z.of_nat (Z.to_nat k)) with k by lia.
  apply Z.eqb_eq in Hfull. apply Z.eqb_eq in Hkey.
  rewrite Hfull, Hkey. cbn [negb].
  rewrite mutex_alloc_run, Halloc. cbn [fst snd].
  cbn [Z.eqb negb]. cbn [fill_resource res_mutex].
  rewrite mutex_lock_run. cbn [fst snd].
  destruct (mutex_lock_result cpp None =? 0); cbn [negb].
  - rewrite device_unlock_run. cbn [fst snd].
    rewrite !world_after_after, events_since_world_after.
    split; [|reflexivity].
    rewrite !in_app_iff. cbn [In]. tauto.
  - rewrite err_res_mutex_free_run. cbn [fst snd].
    rewrite !world_after_after, events_since_world_after.
    split; [|reflexivity].
    rewrite !in_app_iff. cbn [In]. tauto.
Qed.

(** ** Release *)

(** C7 (amended): release cannot fail to its caller; it calls unlock on the
    handle's mutex, drops the result of that call without logging anything,
    frees the mutex and frees the handle, whatever the unlock returned. *)
Theorem release_ignores_unlock_result (res : nfp_resource) (w : world) :
  nfp_resource_release res w =
    (tt, world_after w
           [EvMutexUnlock (res_mutex res)
                          (mutex_unlock_result cpp (res_mutex res));
            EvMutexFree (res_mutex res);
            EvKfree] 0) /\
  release_events res w =
    [EvMutexUnlock (res_mutex res) (mutex_unlock_result cpp (res_mutex res));
     EvMutexFree (res_mutex res);
     EvKfree] /\
  existsb is_err (release_events res w) = false.
Proof.
  assert (Hrun : nfp_resource_release res w =
    (tt, world_after w
           [EvMutexUnlock (res_mutex res)
                          (mutex_unlock_result cpp (res_mutex res));
            EvMutexFree (res_mutex res);
            EvKfree] 0)).
  { unfold nfp_resource_release, bind.
    rewrite mutex_unlock_run. cbn [fst snd].
    rewrite mutex_free_run. cbn [fst snd].
    unfold kfree. rewrite emit_run, !world_after_after. reflexivity. }
  split; [exact Hrun|].
  unfold release_events. rewrite Hrun. cbn [snd].
  rewrite events_since_world_after. split; reflexivity.
Qed.

(** ** The port identifier *)

(** C9: a port ID with a bit inside the MBL mask is refused with EINVAL and
    neither the representor nor the log changes; any other port ID is
    accepted with 0, and the device gets the caller's bits inside the UAL
    mask merged with the MBL bits of the identifier it had. *)
Theorem set_port_id_keeps_reserved_bits (repr : nfp_repr) (port_id : Z)
  (w : world) :
  (Z.land port_id NFP_MBL_PORTID_MBL_MASK <> 0 ->
   nfp_ual_set_port_id repr port_id w = ((- EINVAL, repr), w)) /\
  (Z.land port_id NFP_MBL_PORTID_MBL_MASK = 0 ->
   fst (fst (nfp_ual_set_port_id repr port_id w)) = 0 /\
   netdev (snd (fst (nfp_ual_set_port_id repr port_id w))) =
     nfp_repr_set_port_id (netdev repr)
       (Z.lor (Z.land port_id NFP_MBL_PORTID_UAL_MASK)
              (Z.land (nfp_repr_get_port_id (netdev repr))
                      NFP_MBL_PORTID_MBL_MASK))).
Proof.
  unfold nfp_ual_set_port_id. split; intros H.
  - apply Z.eqb_neq in H. rewrite H. reflexivity.
  - rewrite H. cbn [Z.eqb negb]. split; reflexivity.
Qed.

(** * Further properties of the resource directory *)

(** ** Every outcome of nfp_resource_acquire *)

Lemma device_lock_alloc_failed_run (w : world) :
  mutex_alloc_ok cpp NFP_RESOURCE_TBL_TARGET NFP_RESOURCE_TBL_BASE
                 NFP_RESOURCE_TBL_KEY = false ->
  nfp_device_lock w =
  (None,
   world_after w
     [EvMutexAlloc NFP_RESOURCE_TBL_TARGET NFP_RESOURCE_TBL_BASE
                   NFP_RESOURCE_TBL_KEY None] 0).
Proof.
  intros Halloc. unfold nfp_device_lock. unfold bind at 1.
  rewrite mutex_alloc_run, Halloc. reflexivity.
Qed.

Lemma device_lock_refused_run (w : world) :
  mutex_alloc_ok cpp NFP_RESOURCE_TBL_TARGET NFP_RESOURCE_TBL_BASE
                 NFP_RESOURCE_TBL_KEY = true ->
  mutex_lock_result cpp (Some (device_mutex (next_id w))) <> 0 ->
  nfp_device_lock w =
  (None,
   world_after w
     [EvMutexAlloc NFP_RESOURCE_TBL_TARGET NFP_RESOURCE_TBL_BASE
                   NFP_RESOURCE_TBL_KEY (Some (device_mutex (next_id w)));
      EvMutexLock (Some (device_mutex (next_id w)))
                  (mutex_lock_result cpp (Some (device_mutex (next_id w))));
      EvMutexFree (Some (device_mutex (next_id w)))] 1).
Proof.
  intros Halloc Hlock. unfold nfp_device_lock. unfold bind at 1.
  rewrite mutex_alloc_run, Halloc. cbv zeta. cbn [fst snd].
  unfold bind at 1. rewrite mutex_lock_run. cbn [fst snd].
  fold (device_mutex (next_id w)).
  apply Z.eqb_neq in Hlock. rewrite Hlock. cbn [negb].
  unfold bind, ret. rewrite mutex_free_run. cbn [fst snd].
  rewrite !world_after_after. reflexivity.
Qed.

Lemma release_run (res : nfp_resource) (w : world) :
  nfp_resource_release res w =
  (tt, world_after w (release_call_events res) 0).
Proof.
  unfold nfp_resource_release, bind, release_call_events.
  rewrite mutex_unlock_run. cbn [fst snd].
  rewrite mutex_free_run. cbn [fst snd].
  unfold kfree. rewrite emit_run, !world_after_after. reflexivity.
Qed.

(** With the device lock held the call ends in one of the four ways of
    [acquire_outcome]. *)
Lemma acquire_locked_outcome (name : list byte) (w : world) :
  kzalloc_ok = true ->
  device_lock_granted w ->
  exists r ev a,
    nfp_resource_acquire name w
    = (r, world_after w (locked_events (next_id w) ++ ev) a) /\
    acquire_outcome name (next_id w) r ev.
Proof.
  intros Hkz Hdev.
  rewrite (acquire_locked_run name w Hkz Hdev). cbv zeta.
  rewrite resource_find_run.
  destruct (find_loop_outcome (resource_key name) (named_resource name) 128 0
              (world_after w (locked_events (next_id w)) 1))
    as [H | [[k [Hk H]] | [[k [Hk H]] | [k [m [Hk [Hm H]]]]]]];
    rewrite H; cbn [fst snd].
  - change (negb (- ENOENT =? 0)) with true. cbv iota.
    rewrite err_unlock_dev_run, !world_after_after.
    do 3 eexists. split; [reflexivity|]. apply ScanExhausted.
  - change (negb (- EIO =? 0)) with true. cbv iota.
    rewrite err_unlock_dev_run, !world_after_after.
    do 3 eexists. split; [reflexivity|]. apply ScanShortRead. exact Hk.
  - change (negb (0 =? 0)) with false. cbv iota.
    cbn [fill_resource res_mutex].
    rewrite mutex_lock_run. cbn [fst snd].
    rewrite Z.add_0_l.
    destruct (Z.eqb_spec (mutex_lock_result cpp None) 0) as [H0|H0];
      cbn [negb].
    + rewrite device_unlock_run. cbn [fst snd].
      rewrite !world_after_after, <- !app_assoc.
      do 3 eexists. split; [reflexivity|].
      pose proof (HandleReturned name (next_id w) k None Hk
                    (or_introl eq_refl) H0) as Hout.
      rewrite H0. exact Hout.
    + rewrite err_res_mutex_free_run. cbn [fst snd res_mutex].
      rewrite !world_after_after, <- !app_assoc.
      do 3 eexists. split; [reflexivity|].
      exact (EntryLockRefused name (next_id w) k None Hk
               (or_introl eq_refl) H0).
  - change (negb (0 =? 0)) with false. cbv iota.
    cbn [fill_resource res_mutex].
    rewrite mutex_lock_run. cbn [fst snd].
    rewrite Z.add_0_l in *.
    assert (Hm' : Some m
                  = Some (slot_mutex (S (next_id w)) (resource_key name)
                                     (Z.of_nat k))).
    { rewrite Hm. reflexivity. }
    destruct (Z.eqb_spec (mutex_lock_result cpp (Some m)) 0) as [H0|H0];
      cbn [negb].
    + rewrite device_unlock_run. cbn [fst snd].
      rewrite !world_after_after, <- !app_assoc.
      do 3 eexists. split; [reflexivity|].
      pose proof (HandleReturned name (next_id w) k (Some m) Hk
                    (or_intror Hm') H0) as Hout.
      rewrite H0. exact Hout.
    + rewrite err_res_mutex_free_run. cbn [fst snd res_mutex].
      rewrite !world_after_after, <- !app_assoc.
      do 3 eexists. split; [reflexivity|].
      exact (EntryLockRefused name (next_id w) k (Some m) Hk
               (or_intror Hm') H0).
Qed.

Lemma acquire_ptr_locked (name : list byte) (w : world) (res : nfp_resource) :
  fst (nfp_resource_acquire name w) = Ptr res ->
  kzalloc_ok = true /\ device_lock_granted w.
Proof.
  intros Hres.
  destruct kzalloc_ok eqn:Hkz.
  2:{ rewrite acquire_without_device_lock in Hres by (left; exact Hkz).
      discriminate. }
  destruct (mutex_alloc_ok cpp NFP_RESOURCE_TBL_TARGET NFP_RESOURCE_TBL_BASE
              NFP_RESOURCE_TBL_KEY) eqn:Halloc.
  2:{ rewrite acquire_without_device_lock in Hres
        by (right; left; exact Halloc).
      discriminate. }
  destruct (Z.eq_dec (mutex_lock_result cpp (Some (device_mutex (next_id w)))) 0)
    as [Hlock|Hlock].
  2:{ rewrite acquire_without_device_lock in Hres
        by (right; right; exact Hlock).
      discriminate. }
  split; [reflexivity | split; assumption].
Qed.

(** A returned handle comes from one slot of the table, after the reads of
    the slots up to it, the allocation and the lock of its mutex and the
    release of the device lock. *)
Lemma acquire_handle_run (name : list byte) (w : world) (res : nfp_resource) :
  fst (nfp_resource_acquire name w) = Ptr res ->
  exists (k : nat) (m : option nfp_cpp_mutex) (a : nat),
    (k < 128)%nat /\
    (m = None \/
     m = Some (slot_mutex (S (next_id w)) (resource_key name) (Z.of_nat k))) /\
    mutex_lock_result cpp m = 0 /\
    res = fill_resource (named_resource name) (slot_entry (Z.of_nat k)) m /\
    nfp_resource_acquire name w
    = (Ptr res,
       world_after w
         (locked_events (next_id w)
          ++ scan_events 0 (S k)
          ++ [EvMutexAlloc NFP_RESOURCE_TBL_TARGET (slot_addr (Z.of_nat k))
                           (resource_key name) m;
              EvMutexLock m 0]
          ++ device_unlock_events (Some (device_mutex (next_id w)))) a).
Proof.
  intros Hres.
  destruct (acquire_ptr_locked name w res Hres) as [Hkz Hdev].
  destruct (acquire_locked_outcome name w Hkz Hdev) as [r [ev [a [Hrun Hout]]]].
  rewrite Hrun in Hres. cbn [fst] in Hres. subst r.
  inversion Hout as [ | | | k m Hk Hm Hlock Hr Hev]; subst.
  exists k, m, a. repeat split; try assumption.
Qed.

(** ** The paths that never reach the scan *)

Lemma acquire_no_memory_run (name : list byte) (w : world) :
  kzalloc_ok = false ->
  nfp_resource_acquire name w
  = (ERR_PTR (- ENOMEM), world_after w [EvKzalloc false] 0).
Proof.
  intros Hkz.
  unfold nfp_resource_acquire, kzalloc, bind, ret. rewrite Hkz. reflexivity.
Qed.

Lemma acquire_no_device_mutex_run (name : list byte) (w : world) :
  kzalloc_ok = true ->
  mutex_alloc_ok cpp NFP_RESOURCE_TBL_TARGET NFP_RESOURCE_TBL_BASE
                 NFP_RESOURCE_TBL_KEY = false ->
  nfp_resource_acquire name w
  = (ERR_PTR (- ENOMEM),
     world_after w
       [EvKzalloc true;
        EvMutexAlloc NFP_RESOURCE_TBL_TARGET NFP_RESOURCE_TBL_BASE
                     NFP_RESOURCE_TBL_KEY None;
        EvKfree] 0).
Proof.
  intros Hkz Halloc.
  unfold nfp_resource_acquire. unfold bind at 1.
  rewrite (kzalloc_run w Hkz). cbn [fst snd]. unfold bind at 1.
  rewrite (device_lock_alloc_failed_run _ Halloc). cbn [fst snd].
  rewrite err_free_res_run, !world_after_after. reflexivity.
Qed.

Lemma acquire_device_lock_refused_run (name : list byte) (w : world) :
  kzalloc_ok = true ->
  mutex_alloc_ok cpp NFP_RESOURCE_TBL_TARGET NFP_RESOURCE_TBL_BASE
                 NFP_RESOURCE_TBL_KEY = true ->
  mutex_lock_result cpp (Some (device_mutex (next_id w))) <> 0 ->
  nfp_resource_acquire name w
  = (ERR_PTR (- ENOMEM),
     world_after w
       [EvKzalloc true;
        EvMutexAlloc NFP_RESOURCE_TBL_TARGET NFP_RESOURCE_TBL_BASE
                     NFP_RESOURCE_TBL_KEY (Some (device_mutex (next_id w)));
        EvMutexLock (Some (device_mutex (next_id w)))
                    (mutex_lock_result cpp (Some (device_mutex (next_id w))));
        EvMutexFree (Some (device_mutex (next_id w)));
        EvKfree] 1).
Proof.
  intros Hkz Halloc Hlock.
  unfold nfp_resource_acquire. unfold bind at 1.
  rewrite (kzalloc_run w Hkz). cbn [fst snd]. unfold bind at 1.
  rewrite (device_lock_refused_run (world_after w [EvKzalloc true] 0)
             Halloc Hlock).
  cbn [fst snd].
  rewrite err_free_res_run, !world_after_after. reflexivity.
Qed.

(** X1: whenever the device lock is not obtained (no memory for the handle,
    no memory for the device mutex, or its lock refused) the call fails
    with ENOMEM without a single bus read, leaves no mutex allocated and no
    lock held, and frees the handle exactly when it had been allocated. *)
Theorem acquire_without_lock_touches_nothing (name : list byte) (w : world) :
  kzalloc_ok = false \/
  mutex_alloc_ok cpp NFP_RESOURCE_TBL_TARGET NFP_RESOURCE_TBL_BASE
                 NFP_RESOURCE_TBL_KEY = false \/
  mutex_lock_result cpp (Some (device_mutex (next_id w))) <> 0 ->
  fst (nfp_resource_acquire name w) = ERR_PTR (- ENOMEM) /\
  read_addrs (acquire_events name w) = [] /\
  outstanding (acquire_events name w) = [] /\
  held (acquire_events name w) = [] /\
  count is_kfree (acquire_events name w) = (if kzalloc_ok then 1%nat else 0%nat).
Proof.
  intros H. unfold acquire_events.
  destruct kzalloc_ok eqn:Hkz.
  2:{ rewrite (acquire_no_memory_run name w Hkz). cbn [fst snd].
      rewrite events_since_world_after. repeat split. }
  destruct H as [H | H]; [discriminate|].
  destruct (mutex_alloc_ok cpp NFP_RESOURCE_TBL_TARGET NFP_RESOURCE_TBL_BASE
              NFP_RESOURCE_TBL_KEY) eqn:Halloc.
  2:{ rewrite (acquire_no_device_mutex_run name w Hkz Halloc). cbn [fst snd].
      rewrite events_since_world_after. repeat split. }
  destruct H as [H | H]; [discriminate|].
  rewrite (acquire_device_lock_refused_run name w Hkz Halloc H).
  cbn [fst snd]. rewrite events_since_world_after.
  apply Z.eqb_neq in H.
  repeat split; observe_log; rewrite ?H; observe_log; reflexivity.
Qed.

(** X2: when the lock of the device mutex is refused, the code the lock
    returned is dropped and the call reports ENOMEM; the device mutex is
    freed without an unlock call and the handle is freed after it. *)
Theorem acquire_device_lock_refused (name : list byte) (w : world) :
  kzalloc_ok = true ->
  mutex_alloc_ok cpp NFP_RESOURCE_TBL_TARGET NFP_RESOURCE_TBL_BASE
                 NFP_RESOURCE_TBL_KEY = true ->
  mutex_lock_result cpp (Some (device_mutex (next_id w))) <> 0 ->
  fst (nfp_resource_acquire name w) = ERR_PTR (- ENOMEM) /\
  acquire_events name w =
    [EvKzalloc true;
     EvMutexAlloc NFP_RESOURCE_TBL_TARGET NFP_RESOURCE_TBL_BASE
                  NFP_RESOURCE_TBL_KEY (Some (device_mutex (next_id w)));
     EvMutexLock (Some (device_mutex (next_id w)))
                 (mutex_lock_result cpp (Some (device_mutex (next_id w))));
     EvMutexFree (Some (device_mutex (next_id w)));
     EvKfree] /\
  count (is_unlock_of (device_mutex (next_id w))) (acquire_events name w)
    = 0%nat.
Proof.
  intros Hkz Halloc Hlock. unfold acquire_events.
  rewrite (acquire_device_lock_refused_run name w Hkz Halloc Hlock).
  cbn [fst snd]. rewrite events_since_world_after.
  split; [reflexivity|]. split; [reflexivity|].
  observe_log. reflexivity.
Qed.

(** ** The path that returns a handle *)

Lemma slot_mutex_id (id : nat) (key k : Z) : mx_id (slot_mutex id key k) = id.
Proof. reflexivity. Qed.

Ltac observe_handle :=
  repeat first
    [ progress unfold release_call_events, handle_mutexes
    | progress cbn [fill_resource res_mutex]
    | rewrite slot_mutex_id
    | progress observe_log ].

(** X3: a call that returns a handle has released the device lock: one
    unlock and one free of the device mutex, no kfree; the only allocation
    still outstanding and the only lock still held are those of the mutex
    kept in the handle. *)
Theorem acquire_success_keeps_only_entry_lock (name : list byte) (w : world)
  (res : nfp_resource) :
  fst (nfp_resource_acquire name w) = Ptr res ->
  count (is_unlock_of (device_mutex (next_id w))) (acquire_events name w)
    = 1%nat /\
  count (is_free_of (device_mutex (next_id w))) (acquire_events name w)
    = 1%nat /\
  count is_kfree (acquire_events name w) = 0%nat /\
  outstanding (acquire_events name w) = handle_mutexes res /\
  held (acquire_events name w) = handle_mutexes res.
Proof.
  intros Hres.
  destruct (acquire_handle_run name w res Hres)
    as [k [m [a [Hk [Hm [Hlock [Hfill Hrun]]]]]]].
  unfold acquire_events. rewrite Hrun. cbn [snd].
  rewrite events_since_world_after. subst res.
  unfold device_unlock_events.
  destruct Hm as [-> | ->];
    destruct (negb (mutex_unlock_result cpp _ =? 0));
    repeat split; observe_handle; reflexivity.
Qed.

(** X4: acquire followed by release of the handle it returned leaves no
    mutex allocated and no lock held, and frees the handle once. *)
Theorem acquire_then_release_is_balanced (name : list byte) (w : world)
  (res : nfp_resource) :
  fst (nfp_resource_acquire name w) = Ptr res ->
  outstanding
    (events_since w
       (snd (nfp_resource_release res (snd (nfp_resource_acquire name w)))))
    = [] /\
  held
    (events_since w
       (snd (nfp_resource_release res (snd (nfp_resource_acquire name w)))))
    = [] /\
  count is_kfree
    (events_since w
       (snd (nfp_resource_release res (snd (nfp_resource_acquire name w)))))
    = 1%nat.
Proof.
  intros Hres.
  destruct (acquire_handle_run name w res Hres)
    as [k [m [a [Hk [Hm [Hlock [Hfill Hrun]]]]]]].
  rewrite Hrun. cbn [snd]. rewrite release_run. cbn [snd].
  rewrite world_after_after, events_since_world_after. subst res.
  rewrite <- !app_assoc.
  unfold device_unlock_events.
  destruct Hm as [-> | ->];
    destruct (negb (mutex_unlock_result cpp _ =? 0));
    repeat split; observe_handle; reflexivity.
Qed.

(** ** Error codes *)

(** X5: the error a failed call carries is never zero, so the result is
    never a NULL pointer: it is ENOMEM, EIO, ENOENT or the non-zero code
    the lock of the entry mutex returned. *)
Theorem acquire_error_is_never_zero (name : list byte) (w : world) (err : Z) :
  fst (nfp_resource_acquire name w) = ERR_PTR err ->
  err <> 0 /\
  (err = - ENOMEM \/ err = - EIO \/ err = - ENOENT \/
   exists m, err = mutex_lock_result cpp m).
Proof.
  intros Hres.
  destruct kzalloc_ok eqn:Hkz.
  2:{ rewrite acquire_without_device_lock in Hres by (left; exact Hkz).
      injection Hres as <-. split; [discriminate | left; reflexivity]. }
  destruct (mutex_alloc_ok cpp NFP_RESOURCE_TBL_TARGET NFP_RESOURCE_TBL_BASE
              NFP_RESOURCE_TBL_KEY) eqn:Halloc.
  2:{ rewrite acquire_without_device_lock in Hres
        by (right; left; exact Halloc).
      injection Hres as <-. split; [discriminate | left; reflexivity]. }
  destruct (Z.eq_dec (mutex_lock_result cpp (Some (device_mutex (next_id w)))) 0)
    as [Hlock|Hlock].
  2:{ rewrite acquire_without_device_lock in Hres
        by (right; right; exact Hlock).
      injection Hres as <-. split; [discriminate | left; reflexivity]. }
  destruct (acquire_locked_outcome name w Hkz (conj Halloc Hlock))
    as [r [ev [a [Hrun Hout]]]].
  rewrite Hrun in Hres. cbn [fst] in Hres. subst r.
  inversion Hout as [ | k Hk | k m Hk Hm Hne | ]; subst.
  - split; [discriminate | right; right; left; reflexivity].
  - split; [discriminate | right; left; reflexivity].
  - split; [exact Hne | right; right; right; exists m; reflexivity].
Qed.

(** ** Bus reads *)

Lemma read_addrs_locked (n : nat) (t : list event) :
  read_addrs (locked_events n ++ t) = read_addrs t.
Proof. reflexivity. Qed.

(** The reads of any call are those of the first [k] slots, in order. *)
Lemma acquire_read_addrs (name : list byte) (w : world) :
  exists k, (k <= 128)%nat /\
            read_addrs (acquire_events name w) = slot_addrs 0 k.
Proof.
  unfold acquire_events.
  destruct kzalloc_ok eqn:Hkz.
  2:{ rewrite (acquire_no_memory_run name w Hkz). cbn [snd].
      rewrite events_since_world_after. exists 0%nat. split; [lia|reflexivity]. }
  destruct (mutex_alloc_ok cpp NFP_RESOURCE_TBL_TARGET NFP_RESOURCE_TBL_BASE
              NFP_RESOURCE_TBL_KEY) eqn:Halloc.
  2:{ rewrite (acquire_no_device_mutex_run name w Hkz Halloc). cbn [snd].
      rewrite events_since_world_after. exists 0%nat. split; [lia|reflexivity]. }
  destruct (Z.eq_dec (mutex_lock_result cpp (Some (device_mutex (next_id w)))) 0)
    as [Hlock|Hlock].
  2:{ rewrite (acquire_device_lock_refused_run name w Hkz Halloc Hlock).
      cbn [snd]. rewrite events_since_world_after.
      exists 0%nat. split; [lia|reflexivity]. }
  destruct (acquire_locked_outcome name w Hkz (conj Halloc Hlock))
    as [r [ev [a [Hrun Hout]]]].
  rewrite Hrun. cbn [snd]. rewrite events_since_world_after.
  rewrite read_addrs_locked.
  inversion Hout as [ | k Hk | k m Hk Hm Hne | k m Hk Hm Hz ]; subst;
    [exists 128%nat | exists (S k) | exists (S k) | exists (S k)];
    (split; [lia|]);
    rewrite !read_addrs_app, read_addrs_scan, ?read_addrs_device_unlock;
    cbn [read_addrs app]; rewrite ?app_nil_r; reflexivity.
Qed.

(** X6: whatever the device answers, the bus reads of one call are the
    reads of the first slots of the table, each slot once and in index
    order, and there are never more than 128 of them. *)
Theorem acquire_reads_a_prefix_of_the_table (name : list byte) (w : world) :
  (List.length (read_addrs (acquire_events name w)) <= 128)%nat /\
  read_addrs (acquire_events name w)
  = slot_addrs 0 (List.length (read_addrs (acquire_events name w))).
Proof.
  destruct (acquire_read_addrs name w) as [k [Hk Hreads]].
  rewrite Hreads, slot_addrs_length. split; [exact Hk | reflexivity].
Qed.

Lemma slot_addr_exact (i : Z) :
  0 <= NFP_RESOURCE_TBL_BASE ->
  NFP_RESOURCE_TBL_BASE + NFP_RESOURCE_TBL_SIZE <= 2 ^ 64 ->
  0 <= i < NFP_RESOURCE_TBL_ENTRIES ->
  slot_addr i = NFP_RESOURCE_TBL_BASE + sizeof_nfp_resource_entry * i.
Proof.
  intros Hbase Hend Hi. unfold slot_addr, u64.
  change NFP_RESOURCE_TBL_SIZE with 4096 in Hend.
  change NFP_RESOURCE_TBL_ENTRIES with 128 in Hi.
  change sizeof_nfp_resource_entry with 32.
  apply Z.mod_small. lia.
Qed.

Lemma slot_addrs_in_table (i : Z) (k : nat) :
  0 <= NFP_RESOURCE_TBL_BASE ->
  NFP_RESOURCE_TBL_BASE + NFP_RESOURCE_TBL_SIZE <= 2 ^ 64 ->
  0 <= i -> i + Z.of_nat k <= NFP_RESOURCE_TBL_ENTRIES ->
  Forall (fun a =>
            NFP_RESOURCE_TBL_BASE <= a /\
            a + sizeof_nfp_resource_entry
              <= NFP_RESOURCE_TBL_BASE + NFP_RESOURCE_TBL_SIZE /\
            (a - NFP_RESOURCE_TBL_BASE) mod sizeof_nfp_resource_entry = 0)
         (slot_addrs i k).
Proof.
  intros Hbase Hend. revert i.
  induction k as [|k IH]; intros i Hi Hk; cbn [slot_addrs].
  - constructor.
  - constructor.
    + rewrite slot_addr_exact by (try assumption; lia).
      change NFP_RESOURCE_TBL_SIZE with 4096 in *.
      change NFP_RESOURCE_TBL_ENTRIES with 128 in *.
      change sizeof_nfp_resource_entry with 32.
      split; [lia|]. split; [lia|].
      replace (NFP_RESOURCE_TBL_BASE + 32 * i - NFP_RESOURCE_TBL_BASE)
        with (i * 32) by lia.
      apply Z.mod_mul. lia.
    + apply IH; lia.
Qed.

(** X7: when the table lies inside the 64-bit address space, every bus read
    of a call covers one whole entry inside the 4096 bytes of the table, at
    an offset that is a multiple of the entry size. *)
Theorem acquire_reads_stay_inside_the_table (name : list byte) (w : world) :
  0 <= NFP_RESOURCE_TBL_BASE ->
  NFP_RESOURCE_TBL_BASE + NFP_RESOURCE_TBL_SIZE <= 2 ^ 64 ->
  Forall (fun a =>
            NFP_RESOURCE_TBL_BASE <= a /\
            a + sizeof_nfp_resource_entry
              <= NFP_RESOURCE_TBL_BASE + NFP_RESOURCE_TBL_SIZE /\
            (a - NFP_RESOURCE_TBL_BASE) mod sizeof_nfp_resource_entry = 0)
         (read_addrs (acquire_events name w)).
Proof.
  intros Hbase Hend.
  destruct (acquire_read_addrs name w) as [k [Hk Hreads]].
  rewrite Hreads. apply slot_addrs_in_table; try assumption; [lia|].
  change NFP_RESOURCE_TBL_ENTRIES with 128. lia.
Qed.

(** ** The fields of a handle *)

Lemma page_shift_range (x : Z) :
  0 <= x < 2 ^ 32 ->
  0 <= u64 (Z.shiftl (u64 x) 8) < 2 ^ 40 /\
  u64 (Z.shiftl (u64 x) 8) mod 256 = 0.
Proof.
  intros Hx. rewrite page_shift_exact by exact Hx.
  rewrite Z.shiftl_mul_pow2 by lia.
  change (2 ^ 8) with 256. split; [lia|]. apply Z.mod_mul. lia.
Qed.

(** X8: in every handle that is returned the address and the size are
    multiples of 256 below 2^40, and cpp_id fits 32 bits; the shift by 8
    never overflows the 64-bit fields. *)
Theorem handle_fields_in_range (name : list byte) (w : world)
  (res : nfp_resource) :
  fst (nfp_resource_acquire name w) = Ptr res ->
  0 <= nfp_resource_cpp_id res < 2 ^ 32 /\
  (0 <= nfp_resource_address res < 2 ^ 40 /\
   nfp_resource_address res mod 256 = 0) /\
  (0 <= nfp_resource_size res < 2 ^ 40 /\
   nfp_resource_size res mod 256 = 0).
Proof.
  intros Hres.
  destruct (acquire_handle_run name w res Hres)
    as [k [m [a [_ [_ [_ [Hfill _]]]]]]].
  subst res.
  unfold nfp_resource_cpp_id, nfp_resource_address, nfp_resource_size.
  cbn [fill_resource res_cpp_id res_addr res_size].
  split; [apply u32_range|].
  split; apply page_shift_range, load_u32_range.
Qed.

(** ** The name *)

Lemma firstn_app_firstn (l z : list byte) (n : nat) :
  firstn n (l ++ z) = firstn n (firstn n l ++ z).
Proof.
  revert l. induction n as [|n IH]; intros l; [reflexivity|].
  destruct l as [|c l]; cbn [firstn app].
  - reflexivity.
  - f_equal. apply IH.
Qed.

Lemma zero_padded_of_prefix (name : list byte) :
  zero_padded name
  = firstn NFP_RESOURCE_ENTRY_NAME_SZ
           (name_prefix name ++ repeat x00 NFP_RESOURCE_ENTRY_NAME_SZ).
Proof. unfold zero_padded, name_prefix. apply firstn_app_firstn. Qed.

(** X9: only the first eight characters of the name count: two names whose
    strings agree up to the eighth character (or up to an earlier NUL) lead
    to the same key, the same bus and mutex traffic and the same result. *)
Theorem acquire_reads_eight_characters (n1 n2 : list byte) (w : world) :
  name_prefix n1 = name_prefix n2 ->
  resource_key n1 = resource_key n2 /\
  nfp_resource_acquire n1 w = nfp_resource_acquire n2 w.
Proof.
  intros Hpre.
  assert (Hpad : zero_padded n1 = zero_padded n2).
  { rewrite !zero_padded_of_prefix, Hpre. reflexivity. }
  assert (Hkey : resource_key n1 = resource_key n2).
  { rewrite !resource_key_rule, Hpad. reflexivity. }
  assert (Hcopy : strncpy_bytes n1 NFP_RESOURCE_ENTRY_NAME_SZ
                  = strncpy_bytes n2 NFP_RESOURCE_ENTRY_NAME_SZ).
  { rewrite !strncpy_bytes_zero_padded. exact Hpad. }
  split; [exact Hkey|].
  unfold nfp_resource_acquire, nfp_cpp_resource_find, strncpy.
  rewrite Hkey, Hcopy. reflexivity.
Qed.

(** ** The table's own name *)

(** X10: asking for the table's own name when slot 0 carries the reserved
    key makes the call allocate and lock, while it still holds the device
    lock, a second mutex with the very target, address and key of the
    device mutex. *)
Theorem table_name_relocks_the_device_mutex (name : list byte) (w : world) :
  kzalloc_ok = true ->
  device_lock_granted w ->
  zero_padded name = tbl_name_padded ->
  fst (slot_read 0) = sizeof_nfp_resource_entry ->
  slot_key 0 = u32 NFP_RESOURCE_TBL_KEY ->
  0 <= NFP_RESOURCE_TBL_BASE < 2 ^ 64 ->
  0 <= NFP_RESOURCE_TBL_KEY < 2 ^ 32 ->
  exists m rest,
    mx_id m = S (next_id w) /\
    mx_target m = mx_target (device_mutex (next_id w)) /\
    mx_address m = mx_address (device_mutex (next_id w)) /\
    mx_key m = mx_key (device_mutex (next_id w)) /\
    acquire_events name w
    = locked_events (next_id w)
      ++ EvRead tbl_cpp_id NFP_RESOURCE_TBL_BASE sizeof_nfp_resource_entry
                sizeof_nfp_resource_entry
      :: EvMutexAlloc NFP_RESOURCE_TBL_TARGET NFP_RESOURCE_TBL_BASE
                      NFP_RESOURCE_TBL_KEY (Some m)
      :: EvMutexLock (Some m) (mutex_lock_result cpp (Some m))
      :: rest /\
    count (is_unlock_of (device_mutex (next_id w)))
          (locked_events (next_id w)
           ++ [EvRead tbl_cpp_id NFP_RESOURCE_TBL_BASE
                      sizeof_nfp_resource_entry sizeof_nfp_resource_entry;
               EvMutexAlloc NFP_RESOURCE_TBL_TARGET NFP_RESOURCE_TBL_BASE
                            NFP_RESOURCE_TBL_KEY (Some m)])
    = 0%nat.
Proof.
  intros Hkz Hdev Hname Hfull Hslot Hbase Hkeyr.
  assert (Hkey : resource_key name = NFP_RESOURCE_TBL_KEY).
  { rewrite resource_key_rule.
    destruct (list_eq_dec Byte.byte_eq_dec (zero_padded name) tbl_name_padded)
      as [_|Hne]; [|contradiction].
    unfold u32. apply Z.mod_small. exact Hkeyr. }
  assert (Hu : u32 NFP_RESOURCE_TBL_KEY = NFP_RESOURCE_TBL_KEY)
    by (unfold u32; apply Z.mod_small; exact Hkeyr).
  assert (Haddr : slot_addr 0 = NFP_RESOURCE_TBL_BASE).
  { unfold slot_addr, u64. rewrite Z.mul_0_r, Z.add_0_r.
    apply Z.mod_small. exact Hbase. }
  pose (m := {| mx_id := S (next_id w);
                mx_target := NFP_RESOURCE_TBL_TARGET;
                mx_address := NFP_RESOURCE_TBL_BASE;
                mx_key := NFP_RESOURCE_TBL_KEY |}).
  destruct Hdev as [Halloc Hlock].
  assert (Hrun : exists r rest a,
             nfp_resource_acquire name w
             = (r, world_after w
                     (locked_events (next_id w)
                      ++ EvRead tbl_cpp_id NFP_RESOURCE_TBL_BASE
                                sizeof_nfp_resource_entry
                                sizeof_nfp_resource_entry
                      :: EvMutexAlloc NFP_RESOURCE_TBL_TARGET
                           NFP_RESOURCE_TBL_BASE NFP_RESOURCE_TBL_KEY (Some m)
                      :: EvMutexLock (Some m) (mutex_lock_result cpp (Some m))
                      :: rest) a)).
  { rewrite (acquire_locked_run name w Hkz (conj Halloc Hlock)). cbv zeta.
    rewrite resource_find_run, find_loop_step. cbv zeta.
    rewrite Hkey, Hslot, Hu, Haddr, Hfull, !Z.eqb_refl. cbn [negb].
    rewrite mutex_alloc_run, Halloc. cbv zeta. cbn [fst snd].
    cbn [Z.eqb negb fill_resource res_mutex].
    rewrite mutex_lock_run. cbn [fst snd].
    rewrite !world_after_after. cbn [next_id world_after Nat.add].
    fold m.
    destruct (negb (mutex_lock_result cpp (Some m) =? 0)).
    - rewrite err_res_mutex_free_run. cbn [fst snd].
      rewrite !world_after_after, <- !app_assoc. cbn [app].
      do 3 eexists. reflexivity.
    - rewrite device_unlock_run. cbn [fst snd].
      rewrite !world_after_after, <- !app_assoc. cbn [app].
      do 3 eexists. reflexivity. }
  destruct Hrun as [r [rest [a Hrun]]].
  exists m, rest. unfold acquire_events. rewrite Hrun. cbn [snd].
  rewrite events_since_world_after.
  repeat split.
Qed.

(** ** Logging *)

(** X11: a call that took the device lock logs an error exactly when the
    unlock of the device mutex fails, and then exactly once; nothing else
    in the call is ever logged. *)
Theorem acquire_logs_only_a_failed_device_unlock (name : list byte)
  (w : world) :
  kzalloc_ok = true ->
  device_lock_granted w ->
  count is_err (acquire_events name w)
  = (if mutex_unlock_result cpp (Some (device_mutex (next_id w))) =? 0
     then 0%nat else 1%nat).
Proof.
  intros Hkz Hdev.
  destruct (acquire_locked_outcome name w Hkz Hdev) as [r [ev [a [Hrun Hout]]]].
  unfold acquire_events. rewrite Hrun. cbn [snd].
  rewrite events_since_world_after.
  inversion Hout as [ | k Hk | k m Hk Hm Hne | k m Hk Hm Hz ]; subst;
    unfold device_unlock_events;
    destruct (mutex_unlock_result cpp (Some (device_mutex (next_id w))) =? 0);
    cbn [negb];
    repeat first [ progress cbn [locked_events app is_err]
                 | rewrite count_scan by reflexivity
                 | rewrite count_cons
                 | rewrite count_nil ];
    reflexivity.
Qed.

(** * Further properties of the UAL registration *)

Lemma mbl_events_since_app (s : mbl_state) (c : option nfp_mbl_global_data)
  (t : list mbl_event) :
  mbl_events_since s {| mbl_ctx := c; mbl_log := mbl_log s ++ t |} = t.
Proof.
  unfold mbl_events_since. cbn [mbl_log].
  rewrite skipn_app, skipn_all, Nat.sub_diag. reflexivity.
Qed.

Lemma mbl_events_since_same (s : mbl_state) : mbl_events_since s s = [].
Proof. unfold mbl_events_since. apply skipn_all. Qed.

(** A registration that passes the three checks: the fields are written
    under the lock, the MBL core is asked to start the UAL, and the fields
    are cleared again if it refuses. *)
Lemma register_attempt_run (ops : option nfp_ual_ops) (cookie : option nat)
  (s : mbl_state) (ctx : nfp_mbl_global_data) :
  ops_unusable ops = false ->
  mbl_ctx s = Some ctx ->
  ual_ops ctx = None ->
  nfp_ual_register ops cookie s =
  if negb (fst (nfp_mbl_try_init_ual (set_ual ctx ops cookie)) =? 0)
  then
    (fst (nfp_mbl_try_init_ual (set_ual ctx ops cookie)),
     {| mbl_ctx :=
          Some (set_ual (snd (nfp_mbl_try_init_ual (set_ual ctx ops cookie)))
                        None None);
        mbl_log :=
          mbl_log s
          ++ MblMutexLock :: register_info ctx ops
          ++ [MblTryInitUal
                (fst (nfp_mbl_try_init_ual (set_ual ctx ops cookie)));
              MblMutexUnlock] |})
  else
    (0,
     {| mbl_ctx := Some (snd (nfp_mbl_try_init_ual (set_ual ctx ops cookie)));
        mbl_log :=
          mbl_log s
          ++ MblMutexLock :: register_info ctx ops
          ++ [MblTryInitUal
                (fst (nfp_mbl_try_init_ual (set_ual ctx ops cookie)));
              MblMutexUnlock; MblCancelProbe] |}).
Proof.
  intros Hops Hctx Hfree.
  unfold nfp_ual_register. rewrite Hops, Hctx, Hfree. cbv zeta.
  unfold register_info. cbn [set_ual dev_ctx_primary ual_ops].
  destruct (negb (fst (nfp_mbl_try_init_ual (set_ual ctx ops cookie)) =? 0));
    destruct (dev_ctx_primary ctx);
    unfold mbl_emit, mbl_store; cbn [mbl_ctx mbl_log app];
    rewrite <- ?app_assoc; reflexivity.
Qed.

Lemma unregister_run (s : mbl_state) (ctx : nfp_mbl_global_data) :
  mbl_ctx s = Some ctx ->
  nfp_ual_unregister s =
  (ual_cookie (nfp_mbl_stop_ual ctx),
   {| mbl_ctx := Some (set_ual (nfp_mbl_stop_ual ctx) None None);
      mbl_log := mbl_log s ++ unregister_info ctx ++ [MblStopUal] |}).
Proof.
  intros Hctx. unfold nfp_ual_unregister. rewrite Hctx. cbv zeta.
  unfold unregister_info.
  destruct (dev_ctx_primary ctx);
    unfold mbl_emit, mbl_store; cbn [mbl_ctx mbl_log app];
    rewrite <- ?app_assoc; reflexivity.
Qed.

Lemma mbl_lock_ops_app (a b : list mbl_event) :
  mbl_lock_ops (a ++ b) = mbl_lock_ops a ++ mbl_lock_ops b.
Proof. unfold mbl_lock_ops. apply filter_app. Qed.

Lemma mbl_lock_ops_register_info (ctx : nfp_mbl_global_data)
  (ops : option nfp_ual_ops) :
  mbl_lock_ops (register_info ctx ops) = [].
Proof. unfold register_info. now destruct (dev_ctx_primary ctx). Qed.


(** X12: a registration that is refused at one of the three checks changes
    nothing: the context keeps its ops and cookie, the lock is not taken
    and the MBL core is not called.  Unusable ops are reported as EINVAL
    even when there is no context, a missing context as EAGAIN, and an
    existing registration as EEXIST. *)
Theorem register_refusal_changes_nothing (ops : option nfp_ual_ops)
  (cookie : option nat) (s : mbl_state) :
  ops_unusable ops = true \/ mbl_ctx s = None \/
  (exists ctx o, mbl_ctx s = Some ctx /\ ual_ops ctx = Some o) ->
  mbl_ctx (snd (nfp_ual_register ops cookie s)) = mbl_ctx s /\
  mbl_events_since s (snd (nfp_ual_register ops cookie s))
    = (if ops_unusable ops then [MblWarn] else []) /\
  fst (nfp_ual_register ops cookie s)
    = (if ops_unusable ops then - EINVAL
       else match mbl_ctx s with
            | None => - EAGAIN
            | Some _ => - EEXIST
            end).
Proof.
  intros H. unfold nfp_ual_register.
  destruct (ops_unusable ops).
  - cbn [fst snd]. unfold mbl_emit. cbn [mbl_ctx].
    rewrite mbl_events_since_app. repeat split.
  - destruct H as [H | [H | [ctx [o [Hctx Ho]]]]]; [discriminate | |].
    + rewrite H. cbn [fst snd]. rewrite mbl_events_since_same, H.
      repeat split.
    + rewrite Hctx, Ho. cbn [fst snd]. rewrite mbl_events_since_same, Hctx.
      repeat split.
Qed.

(** X13: when the MBL core refuses to start the UAL, the registration
    returns its error and is undone: ops and cookie are NULL again whatever
    the core did to them, the lock was taken and released once, and the
    probe work is left running. *)
Theorem register_failure_rolls_back (ops : option nfp_ual_ops)
  (cookie : option nat) (s : mbl_state) (ctx : nfp_mbl_global_data) :
  ops_unusable ops = false ->
  mbl_ctx s = Some ctx ->
  ual_ops ctx = None ->
  fst (nfp_mbl_try_init_ual (set_ual ctx ops cookie)) <> 0 ->
  fst (nfp_ual_register ops cookie s)
    = fst (nfp_mbl_try_init_ual (set_ual ctx ops cookie)) /\
  (exists ctx',
     mbl_ctx (snd (nfp_ual_register ops cookie s)) = Some ctx' /\
     ual_ops ctx' = None /\ ual_cookie ctx' = None) /\
  mbl_lock_ops (mbl_events_since s (snd (nfp_ual_register ops cookie s)))
    = [MblMutexLock; MblMutexUnlock] /\
  ~ In MblCancelProbe
       (mbl_events_since s (snd (nfp_ual_register ops cookie s))).
Proof.
  intros Hops Hctx Hfree Herr.
  rewrite (register_attempt_run ops cookie s ctx Hops Hctx Hfree).
  apply Z.eqb_neq in Herr. rewrite Herr. cbn [negb fst snd].
  rewrite mbl_events_since_app.
  split; [reflexivity|].
  split; [eexists; cbn [mbl_ctx]; repeat split|].
  split.
  - change (MblMutexLock :: register_info ctx ops ++ ?t)
      with ([MblMutexLock] ++ register_info ctx ops ++ t).
    rewrite !mbl_lock_ops_app, mbl_lock_ops_register_info. reflexivity.
  - intros [H | H]; [discriminate|].
    apply in_app_iff in H. destruct H as [H | H].
    + unfold register_info in H.
      destruct (dev_ctx_primary ctx); cbn [In] in H.
      * destruct H as [H | []]. discriminate.
      * destruct H.
    + cbn [In] in H. destruct H as [H | [H | []]]; discriminate.
Qed.


(** X15: when the MBL core leaves the cookie alone, unregistering after an
    accepted registration hands back the cookie that was registered, and
    the context is free for a new registration. *)
Theorem register_unregister_round_trip (ops : option nfp_ual_ops)
  (cookie : option nat) (s : mbl_state) (ctx : nfp_mbl_global_data) :
  (forall c, ual_cookie (snd (nfp_mbl_try_init_ual c)) = ual_cookie c) ->
  (forall c, ual_cookie (nfp_mbl_stop_ual c) = ual_cookie c) ->
  ops_unusable ops = false ->
  mbl_ctx s = Some ctx ->
  ual_ops ctx = None ->
  fst (nfp_mbl_try_init_ual (set_ual ctx ops cookie)) = 0 ->
  fst (nfp_ual_unregister (snd (nfp_ual_register ops cookie s))) = cookie /\
  exists ctx',
    mbl_ctx (snd (nfp_ual_unregister (snd (nfp_ual_register ops cookie s))))
      = Some ctx' /\
    ual_ops ctx' = None /\ ual_cookie ctx' = None.
Proof.
  intros Htry Hstop Hops Hctx Hfree Hok.
  rewrite (register_attempt_run ops cookie s ctx Hops Hctx Hfree).
  rewrite Hok. cbn [Z.eqb negb snd].
  rewrite (unregister_run _ (snd (nfp_mbl_try_init_ual (set_ual ctx ops cookie))))
    by reflexivity.
  cbn [fst snd mbl_ctx]. split.
  - rewrite Hstop, Htry. reflexivity.
  - eexists. repeat split.
Qed.

(** X16: whatever the arguments and the state, a registration never returns
    with the lock held and never unlocks a lock it did not take: its calls
    on the lock are none at all, or one lock followed by one unlock. *)
Theorem register_lock_is_balanced (ops : option nfp_ual_ops)
  (cookie : option nat) (s : mbl_state) :
  mbl_lock_ops (mbl_events_since s (snd (nfp_ual_register ops cookie s))) = []
  \/
  mbl_lock_ops (mbl_events_since s (snd (nfp_ual_register ops cookie s)))
    = [MblMutexLock; MblMutexUnlock].
Proof.
  destruct (ops_unusable ops) eqn:Hops.
  { left. unfold nfp_ual_register. rewrite Hops. cbn [snd].
    unfold mbl_emit. rewrite mbl_events_since_app. reflexivity. }
  destruct (mbl_ctx s) as [ctx|] eqn:Hctx.
  2:{ left. unfold nfp_ual_register. rewrite Hops, Hctx. cbn [snd].
      rewrite mbl_events_since_same. reflexivity. }
  destruct (ual_ops ctx) as [o|] eqn:Hfree.
  { left. unfold nfp_ual_register. rewrite Hops, Hctx, Hfree. cbn [snd].
    rewrite mbl_events_since_same. reflexivity. }
  right.
  rewrite (register_attempt_run ops cookie s ctx Hops Hctx Hfree).
  destruct (negb (fst (nfp_mbl_try_init_ual (set_ual ctx ops cookie)) =? 0));
    cbn [snd]; rewrite mbl_events_since_app;
    change (MblMutexLock :: register_info ctx ops ++ ?t)
      with ([MblMutexLock] ++ register_info ctx ops ++ t);
    rewrite !mbl_lock_ops_app, mbl_lock_ops_register_info; reflexivity.
Qed.


(** * Further properties of the port identifier *)

(** X18: with disjoint masks, an accepted port ID gives the device an
    identifier whose MBL bits are those it had and whose UAL bits are those
    of the caller. *)
Theorem set_port_id_splits_the_identifier (repr : nfp_repr) (port_id : Z)
  (w : world) :
  Z.land NFP_MBL_PORTID_UAL_MASK NFP_MBL_PORTID_MBL_MASK = 0 ->
  Z.land port_id NFP_MBL_PORTID_MBL_MASK = 0 ->
  exists new_id,
    netdev (snd (fst (nfp_ual_set_port_id repr port_id w)))
      = nfp_repr_set_port_id (netdev repr) new_id /\
    Z.land new_id NFP_MBL_PORTID_MBL_MASK
      = Z.land (nfp_repr_get_port_id (netdev repr)) NFP_MBL_PORTID_MBL_MASK /\
    Z.land new_id NFP_MBL_PORTID_UAL_MASK
      = Z.land port_id NFP_MBL_PORTID_UAL_MASK /\
    log (snd (nfp_ual_set_port_id repr port_id w))
      = log w ++ [EvInfo (netdev_name (netdev repr))
                         (nfp_repr_get_port_id (netdev repr)) new_id].
Proof.
  intros Hdisj Hok.
  unfold nfp_ual_set_port_id. rewrite Hok. cbn [Z.eqb negb].
  eexists. split; [reflexivity|].
  split; [|split; [|reflexivity]].
  - rewrite Z.land_lor_distr_l, <- !Z.land_assoc, Hdisj, Z.land_diag,
      Z.land_0_r, Z.lor_0_l.
    reflexivity.
  - rewrite Z.land_lor_distr_l, <- !Z.land_assoc, Z.land_diag.
    rewrite (Z.land_comm NFP_MBL_PORTID_MBL_MASK NFP_MBL_PORTID_UAL_MASK),
      Hdisj, Z.land_0_r, Z.lor_0_r.
    reflexivity.
Qed.

End Driver.

(** * The properties on concrete devices *)

Abbreviation sample_acquire cpp name :=
  (nfp_resource_acquire LittleEndian crc32_posix_cksum sample_cpp_id
     sample_tbl_target sample_tbl_base sample_tbl_key sample_tbl_name true
     cpp (list_byte_of_string name) empty_world).

Abbreviation sample_acquire_events cpp name :=
  (acquire_events LittleEndian crc32_posix_cksum sample_cpp_id
     sample_tbl_target sample_tbl_base sample_tbl_key sample_tbl_name true
     cpp (list_byte_of_string name) empty_world).

Abbreviation sample_key name :=
  (resource_key crc32_posix_cksum sample_tbl_key sample_tbl_name
     (list_byte_of_string name)).

(** Scenario A: "fw.cache" sits in slot 1 with page_offset 4 and
    page_size 2. *)
Lemma scenario_a_acquire :
  exists res,
    fst (sample_acquire (table_cpp scenario_a_table None) "fw.cache") = Ptr res /\
    nfp_resource_address res = 1024 /\
    nfp_resource_size res = 512.
Proof.
  destruct (acquire_returns_first_match LittleEndian crc32_posix_cksum
              sample_cpp_id sample_tbl_target sample_tbl_base sample_tbl_key
              sample_tbl_name true (table_cpp scenario_a_table None)
              (list_byte_of_string "fw.cache") empty_world 1)
    as [res [Hres [_ [Haddr [Hsize _]]]]].
  - reflexivity.
  - split; reflexivity.
  - change NFP_RESOURCE_TBL_ENTRIES with 128. lia.
  - intros j Hj. assert (j = 0) by lia. subst j.
    split; vm_compute; [reflexivity | discriminate].
  - vm_compute. reflexivity.
  - vm_compute. reflexivity.
  - reflexivity.
  - reflexivity.
  - exists res. split; [exact Hres|]. split.
    + rewrite Haddr. vm_compute. reflexivity.
    + rewrite Hsize. vm_compute. reflexivity.
Defined.

(** The keys of "fw.cache" and of the table's own name do not collide. *)
Lemma fw_cache_key_differs :
  (sample_key "fw.cache" = sample_key "nfp.res" <->
   zero_padded (list_byte_of_string "fw.cache")
   = zero_padded (list_byte_of_string "nfp.res")) /\
  sample_key "nfp.res" = 0.
Proof.
  destruct (resource_key_of_padded_name crc32_posix_cksum sample_tbl_key
              sample_tbl_name (list_byte_of_string "fw.cache")
              (list_byte_of_string "nfp.res")) as [_ [_ [_ Hiff]]].
  - intros [_ [H | [H | H]]]; vm_compute in H; discriminate.
  - split; [exact Hiff | reflexivity].
Defined.

(** C2 as stated fails: the entry is 32 bytes, the table has 128 slots, and
    the scan of a full table without a match issues 128 reads. *)
Lemma table_has_no_170_slots :
  sizeof_nfp_resource_entry <> 24 /\
  NFP_RESOURCE_TBL_ENTRIES <> 170 /\
  fst (sample_acquire (table_cpp full_table None) "missing_")
    = ERR_PTR (- ENOENT) /\
  List.length (read_addrs
                 (sample_acquire_events (table_cpp full_table None) "missing_"))
    <> 170%nat.
Proof.
  split; [vm_compute; discriminate|].
  split; [vm_compute; discriminate|].
  split; [vm_compute; reflexivity|].
  vm_compute. discriminate.
Qed.

(** Scenario B with the slot count of the code. *)
Lemma full_table_scan :
  fst (sample_acquire (table_cpp full_table None) "missing_")
    = ERR_PTR (- ENOENT) /\
  List.length (read_addrs
                 (sample_acquire_events (table_cpp full_table None) "missing_"))
    = 128%nat.
Proof.
  destruct (scan_visits_all_128_slots LittleEndian crc32_posix_cksum
              sample_cpp_id sample_tbl_target sample_tbl_base sample_tbl_key
              sample_tbl_name true (table_cpp full_table None)
              (list_byte_of_string "missing_") empty_world)
    as [_ [_ [_ [Hres [_ Hlen]]]]].
  - reflexivity.
  - split; reflexivity.
  - apply (slots_passed_check LittleEndian sample_cpp_id sample_tbl_target
             sample_tbl_base (table_cpp full_table None)
             (sample_key "missing_") 128).
    vm_compute. reflexivity.
  - split; [exact Hres | exact Hlen].
Defined.

(** Scenario C: a short read at slot 50. *)
Lemma short_read_at_slot_50 :
  fst (sample_acquire (table_cpp full_table (Some 50%nat)) "missing_")
    = ERR_PTR (- EIO) /\
  List.length (read_addrs
                 (sample_acquire_events (table_cpp full_table (Some 50%nat))
                    "missing_"))
    = 51%nat.
Proof.
  destruct (short_read_aborts_scan LittleEndian crc32_posix_cksum
              sample_cpp_id sample_tbl_target sample_tbl_base sample_tbl_key
              sample_tbl_name true (table_cpp full_table (Some 50%nat))
              (list_byte_of_string "missing_") empty_world 50)
    as [Hres [_ Hlen]].
  - reflexivity.
  - split; reflexivity.
  - change NFP_RESOURCE_TBL_ENTRIES with 128. lia.
  - apply (slots_passed_check LittleEndian sample_cpp_id sample_tbl_target
             sample_tbl_base (table_cpp full_table (Some 50%nat))
             (sample_key "missing_") 50).
    vm_compute. reflexivity.
  - vm_compute. reflexivity.
  - split; [exact Hres | exact Hlen].
Defined.

(** A refused per-entry lock: everything taken on the way is given back. *)
Lemma refused_entry_lock_unwinds :
  fst (sample_acquire (busy_cpp scenario_a_table) "fw.cache")
    = ERR_PTR (- EBUSY) /\
  outstanding (sample_acquire_events (busy_cpp scenario_a_table) "fw.cache")
    = [] /\
  held (sample_acquire_events (busy_cpp scenario_a_table) "fw.cache") = [] /\
  count (is_unlock_of
           (device_mutex sample_tbl_target sample_tbl_base sample_tbl_key 0))
        (sample_acquire_events (busy_cpp scenario_a_table) "fw.cache")
    = 1%nat.
Proof.
  assert (Hres : fst (sample_acquire (busy_cpp scenario_a_table) "fw.cache")
                 = ERR_PTR (- EBUSY)) by (vm_compute; reflexivity).
  destruct (acquire_failure_unwinds LittleEndian crc32_posix_cksum
              sample_cpp_id sample_tbl_target sample_tbl_base sample_tbl_key
              sample_tbl_name true (busy_cpp scenario_a_table)
              (list_byte_of_string "fw.cache") empty_world (- EBUSY))
    as [Hun [_ [Hout [Hheld _]]]].
  - reflexivity.
  - split; reflexivity.
  - exact Hres.
  - split; [exact Hres|]. split; [exact Hout|]. split; [exact Hheld|].
    exact Hun.
Defined.

(** The failing input of C6: no memory for the mutex of the matching slot. *)
Lemma starved_entry_mutex_is_locked_anyway :
  In (EvMutexLock None (- EINVAL))
     (sample_acquire_events (starved_cpp scenario_a_table) "fw.cache") /\
  fst (sample_acquire (starved_cpp scenario_a_table) "fw.cache")
    = ERR_PTR (- EINVAL) /\
  fst (sample_acquire (starved_cpp scenario_a_table) "fw.cache")
    <> ERR_PTR (- ENOMEM).
Proof.
  destruct (entry_mutex_alloc_failure_unchecked LittleEndian crc32_posix_cksum
              sample_cpp_id sample_tbl_target sample_tbl_base sample_tbl_key
              sample_tbl_name true (starved_cpp scenario_a_table)
              (list_byte_of_string "fw.cache") empty_world 1)
    as [Hin Hres].
  - reflexivity.
  - split; reflexivity.
  - change NFP_RESOURCE_TBL_ENTRIES with 128. lia.
  - intros j Hj. assert (j = 0) by lia. subst j.
    split; vm_compute; [reflexivity | discriminate].
  - vm_compute. reflexivity.
  - vm_compute. reflexivity.
  - vm_compute. reflexivity.
  - split; [exact Hin|]. rewrite Hres. split; [reflexivity | discriminate].
Defined.

(** C7 as stated fails: the unlock reports an error and release logs
    nothing. *)
Lemma release_is_silent_on_unlock_failure :
  ~ (mutex_unlock_result stuck_cpp (res_mutex sample_handle) <> 0 ->
     existsb is_err (release_events stuck_cpp sample_handle empty_world) = true).
Proof.
  intros H.
  assert (Hne : mutex_unlock_result stuck_cpp (res_mutex sample_handle) <> 0)
    by (vm_compute; discriminate).
  apply H in Hne. vm_compute in Hne. discriminate.
Qed.

(** A port ID inside the UAL bits is merged; one that touches the MBL byte
    is refused. *)
Lemma set_port_id_on_sample_masks :
  nfp_ual_set_port_id Z (fun _ => "eth0"%string) (fun d => d) (fun _ v => v)
    sample_mbl_mask sample_ual_mask {| netdev := 0xab000001 |} 0x01000000
    empty_world
  = ((- EINVAL, {| netdev := 0xab000001 |}), empty_world) /\
  netdev Z
    (snd (fst (nfp_ual_set_port_id Z (fun _ => "eth0"%string) (fun d => d)
                 (fun _ v => v) sample_mbl_mask sample_ual_mask
                 {| netdev := 0xab000001 |} 0x00123456 empty_world)))
  = 0xab123456.
Proof.
  split.
  - apply (set_port_id_keeps_reserved_bits Z (fun _ => "eth0"%string)
             (fun d => d) (fun _ v => v) sample_mbl_mask sample_ual_mask
             {| netdev := 0xab000001 |} 0x01000000 empty_world).
    vm_compute. discriminate.
  - destruct (set_port_id_keeps_reserved_bits Z (fun _ => "eth0"%string)
                (fun d => d) (fun _ v => v) sample_mbl_mask sample_ual_mask
                {| netdev := 0xab000001 |} 0x00123456 empty_world)
      as [_ Hok].
    destruct Hok as [_ Hdev]; [vm_compute; reflexivity|].
    rewrite Hdev. vm_compute. reflexivity.
Defined.

(** A caller-supplied name longer than eight bytes comes back cut to eight
    and terminated. *)
Lemma long_name_is_cut :
  exists res,
    fst (sample_acquire (table_cpp scenario_a_table None) "fw.cache.bin")
      = Ptr res /\
    c_str (nfp_resource_name res) = list_byte_of_string "fw.cache" /\
    nth 8 (nfp_resource_name res) x01 = x00.
Proof.
  destruct (fst (sample_acquire (table_cpp scenario_a_table None)
                   "fw.cache.bin")) as [res|err] eqn:Hres.
  - exists res. split; [reflexivity|].
    destruct (resource_name_terminated LittleEndian crc32_posix_cksum
                sample_cpp_id sample_tbl_target sample_tbl_base sample_tbl_key
                sample_tbl_name true (table_cpp scenario_a_table None)
                (list_byte_of_string "fw.cache.bin") empty_world res Hres)
      as [_ [Hnul [Hstr _]]].
    split; [|exact Hnul].
    rewrite Hstr. vm_compute. reflexivity.
  - vm_compute in Hres. discriminate.
Defined.

(** * The further properties on concrete devices *)

Lemma refused_device_lock_reads_nothing :
  fst (sample_acquire (refusing_cpp scenario_a_table) "fw.cache")
    = ERR_PTR (- ENOMEM) /\
  read_addrs (sample_acquire_events (refusing_cpp scenario_a_table) "fw.cache")
    = [] /\
  outstanding
    (sample_acquire_events (refusing_cpp scenario_a_table) "fw.cache") = [].
Proof.
  destruct (acquire_without_lock_touches_nothing LittleEndian
              crc32_posix_cksum sample_cpp_id sample_tbl_target
              sample_tbl_base sample_tbl_key sample_tbl_name true
              (refusing_cpp scenario_a_table)
              (list_byte_of_string "fw.cache") empty_world)
    as [Hres [Hreads [Hout _]]].
  - right; right. vm_compute. discriminate.
  - split; [exact Hres|]. split; [exact Hreads | exact Hout].
Defined.

Lemma refused_device_lock_reports_enomem :
  fst (sample_acquire (refusing_cpp scenario_a_table) "fw.cache")
    = ERR_PTR (- ENOMEM) /\
  In (EvMutexLock
        (Some (device_mutex sample_tbl_target sample_tbl_base sample_tbl_key 0))
        (- EBUSY))
     (sample_acquire_events (refusing_cpp scenario_a_table) "fw.cache").
Proof.
  destruct (acquire_device_lock_refused LittleEndian crc32_posix_cksum
              sample_cpp_id sample_tbl_target sample_tbl_base sample_tbl_key
              sample_tbl_name true (refusing_cpp scenario_a_table)
              (list_byte_of_string "fw.cache") empty_world)
    as [Hres [Hev _]].
  - reflexivity.
  - reflexivity.
  - vm_compute. discriminate.
  - split; [exact Hres|]. rewrite Hev. cbn [In]. right; right; left.
    reflexivity.
Defined.

Lemma scenario_a_keeps_entry_lock :
  exists res,
    fst (sample_acquire (table_cpp scenario_a_table None) "fw.cache") = Ptr res /\
    held (sample_acquire_events (table_cpp scenario_a_table None) "fw.cache")
      = handle_mutexes res /\
    outstanding
      (sample_acquire_events (table_cpp scenario_a_table None) "fw.cache")
      = handle_mutexes res.
Proof.
  destruct (fst (sample_acquire (table_cpp scenario_a_table None) "fw.cache"))
    as [res|err] eqn:Hres.
  - exists res. split; [reflexivity|].
    destruct (acquire_success_keeps_only_entry_lock LittleEndian
                crc32_posix_cksum sample_cpp_id sample_tbl_target
                sample_tbl_base sample_tbl_key sample_tbl_name true
                (table_cpp scenario_a_table None)
                (list_byte_of_string "fw.cache") empty_world res Hres)
      as [_ [_ [_ [Hout Hheld]]]].
    split; [exact Hheld | exact Hout].
  - vm_compute in Hres. discriminate.
Defined.

Lemma scenario_a_acquire_release :
  exists res,
    fst (sample_acquire (table_cpp scenario_a_table None) "fw.cache") = Ptr res /\
    outstanding
      (events_since empty_world
         (snd (nfp_resource_release (table_cpp scenario_a_table None) res
                 (snd (sample_acquire (table_cpp scenario_a_table None)
                         "fw.cache"))))) = [] /\
    held
      (events_since empty_world
         (snd (nfp_resource_release (table_cpp scenario_a_table None) res
                 (snd (sample_acquire (table_cpp scenario_a_table None)
                         "fw.cache"))))) = [].
Proof.
  destruct (fst (sample_acquire (table_cpp scenario_a_table None) "fw.cache"))
    as [res|err] eqn:Hres.
  - exists res. split; [reflexivity|].
    destruct (acquire_then_release_is_balanced LittleEndian
                crc32_posix_cksum sample_cpp_id sample_tbl_target
                sample_tbl_base sample_tbl_key sample_tbl_name true
                (table_cpp scenario_a_table None)
                (list_byte_of_string "fw.cache") empty_world res Hres)
      as [Hout [Hheld _]].
    split; [exact Hout | exact Hheld].
  - vm_compute in Hres. discriminate.
Defined.

Lemma refused_entry_lock_error_is_not_zero :
  fst (sample_acquire (busy_cpp scenario_a_table) "fw.cache")
    = ERR_PTR (- EBUSY) /\
  - EBUSY <> 0.
Proof.
  assert (Hres : fst (sample_acquire (busy_cpp scenario_a_table) "fw.cache")
                 = ERR_PTR (- EBUSY)) by (vm_compute; reflexivity).
  destruct (acquire_error_is_never_zero LittleEndian crc32_posix_cksum
              sample_cpp_id sample_tbl_target sample_tbl_base sample_tbl_key
              sample_tbl_name true (busy_cpp scenario_a_table)
              (list_byte_of_string "fw.cache") empty_world (- EBUSY) Hres)
    as [Hne _].
  split; [exact Hres | exact Hne].
Defined.

Lemma full_scan_stays_inside_the_table :
  Forall (fun a =>
            sample_tbl_base <= a /\
            a + sizeof_nfp_resource_entry
              <= sample_tbl_base + NFP_RESOURCE_TBL_SIZE /\
            (a - sample_tbl_base) mod sizeof_nfp_resource_entry = 0)
         (read_addrs
            (sample_acquire_events (table_cpp full_table None) "missing_")).
Proof.
  apply (acquire_reads_stay_inside_the_table LittleEndian crc32_posix_cksum
           sample_cpp_id sample_tbl_target sample_tbl_base sample_tbl_key
           sample_tbl_name true (table_cpp full_table None)
           (list_byte_of_string "missing_") empty_world).
  - vm_compute. discriminate.
  - vm_compute. discriminate.
Defined.

Lemma scenario_a_handle_in_range :
  exists res,
    fst (sample_acquire (table_cpp scenario_a_table None) "fw.cache") = Ptr res /\
    nfp_resource_address res mod 256 = 0 /\
    nfp_resource_size res < 2 ^ 40.
Proof.
  destruct (fst (sample_acquire (table_cpp scenario_a_table None) "fw.cache"))
    as [res|err] eqn:Hres.
  - exists res. split; [reflexivity|].
    destruct (handle_fields_in_range LittleEndian crc32_posix_cksum
                sample_cpp_id sample_tbl_target sample_tbl_base sample_tbl_key
                sample_tbl_name true (table_cpp scenario_a_table None)
                (list_byte_of_string "fw.cache") empty_world res Hres)
      as [_ [[_ Haddr] [[_ Hsize] _]]].
    split; [exact Haddr | exact Hsize].
  - vm_compute in Hres. discriminate.
Defined.

Lemma long_name_acquires_like_its_prefix :
  sample_acquire (table_cpp scenario_a_table None) "fw.cache.bin"
  = sample_acquire (table_cpp scenario_a_table None) "fw.cache".
Proof.
  apply (acquire_reads_eight_characters LittleEndian crc32_posix_cksum
           sample_cpp_id sample_tbl_target sample_tbl_base sample_tbl_key
           sample_tbl_name true (table_cpp scenario_a_table None)
           (list_byte_of_string "fw.cache.bin")
           (list_byte_of_string "fw.cache") empty_world).
  vm_compute. reflexivity.
Defined.

Lemma nfp_res_locks_the_table_mutex_twice :
  exists m rest,
    mx_id m = 1%nat /\
    mx_address m = sample_tbl_base /\
    mx_key m = sample_tbl_key /\
    sample_acquire_events (table_cpp scenario_a_table None) "nfp.res"
    = locked_events sample_tbl_target sample_tbl_base sample_tbl_key 0
      ++ EvRead (tbl_cpp_id sample_cpp_id sample_tbl_target) sample_tbl_base
                sizeof_nfp_resource_entry sizeof_nfp_resource_entry
      :: EvMutexAlloc sample_tbl_target sample_tbl_base sample_tbl_key (Some m)
      :: EvMutexLock (Some m)
           (mutex_lock_result (table_cpp scenario_a_table None) (Some m))
      :: rest.
Proof.
  destruct (table_name_relocks_the_device_mutex LittleEndian
              crc32_posix_cksum sample_cpp_id sample_tbl_target
              sample_tbl_base sample_tbl_key sample_tbl_name true
              (table_cpp scenario_a_table None)
              (list_byte_of_string "nfp.res") empty_world)
    as [m [rest [Hid [_ [Haddr [Hkey [Hev _]]]]]]].
  - reflexivity.
  - split; reflexivity.
  - vm_compute. reflexivity.
  - vm_compute. reflexivity.
  - vm_compute. reflexivity.
  - vm_compute. split; [discriminate | reflexivity].
  - vm_compute. split; [discriminate | reflexivity].
  - exists m, rest. split; [exact Hid|]. split; [exact Haddr|].
    split; [exact Hkey | exact Hev].
Defined.

Lemma failed_device_unlock_is_logged_once :
  count is_err
        (sample_acquire_events (unlock_failing_cpp scenario_a_table) "fw.cache")
  = 1%nat.
Proof.
  apply (acquire_logs_only_a_failed_device_unlock LittleEndian
           crc32_posix_cksum sample_cpp_id sample_tbl_target sample_tbl_base
           sample_tbl_key sample_tbl_name true
           (unlock_failing_cpp scenario_a_table)
           (list_byte_of_string "fw.cache") empty_world).
  - reflexivity.
  - split; reflexivity.
Defined.

(** The registration on a context with one bound device and an MBL core
    that starts the UAL, or refuses with EIO, without touching the
    context. *)
Abbreviation sample_ops := (Some {| ops_name := Some "sample_ual"%string |}).

Abbreviation sample_ctx :=
  {| ual_ops := None; ual_cookie := None;
     dev_ctx_primary := Some "0000:04:00.0"%string; mbl_other := tt |}.

Abbreviation sample_mbl := {| mbl_ctx := Some sample_ctx; mbl_log := [] |}.

Abbreviation core_accepts :=
  (fun c : nfp_mbl_global_data unit => (0, c)).

Abbreviation core_refuses :=
  (fun c : nfp_mbl_global_data unit => (- EIO, c)).

Abbreviation core_stops := (fun c : nfp_mbl_global_data unit => c).

Lemma register_without_ops_is_refused :
  fst (nfp_ual_register unit core_accepts None (Some 7%nat) sample_mbl)
    = - EINVAL /\
  mbl_ctx unit
    (snd (nfp_ual_register unit core_accepts None (Some 7%nat) sample_mbl))
    = Some sample_ctx.
Proof.
  destruct (register_refusal_changes_nothing unit core_accepts None
              (Some 7%nat) sample_mbl) as [Hctx [_ Hret]].
  - left. reflexivity.
  - split; [exact Hret | exact Hctx].
Defined.

Lemma refused_start_clears_the_registration :
  fst (nfp_ual_register unit core_refuses sample_ops (Some 7%nat) sample_mbl)
    = - EIO /\
  mbl_lock_ops
    (mbl_events_since unit sample_mbl
       (snd (nfp_ual_register unit core_refuses sample_ops (Some 7%nat)
               sample_mbl)))
    = [MblMutexLock; MblMutexUnlock] /\
  exists ctx',
    mbl_ctx unit
      (snd (nfp_ual_register unit core_refuses sample_ops (Some 7%nat)
              sample_mbl)) = Some ctx' /\
    ual_ops unit ctx' = None /\ ual_cookie unit ctx' = None.
Proof.
  destruct (register_failure_rolls_back unit core_refuses sample_ops
              (Some 7%nat) sample_mbl sample_ctx)
    as [Hret [Hclear [Hlock _]]].
  - reflexivity.
  - reflexivity.
  - reflexivity.
  - vm_compute. discriminate.
  - split; [exact Hret|]. split; [exact Hlock | exact Hclear].
Defined.


Lemma unregister_returns_the_cookie :
  fst (nfp_ual_unregister unit core_stops
         (snd (nfp_ual_register unit core_accepts sample_ops (Some 7%nat)
                 sample_mbl)))
  = Some 7%nat.
Proof.
  destruct (register_unregister_round_trip unit core_accepts core_stops
              sample_ops (Some 7%nat) sample_mbl sample_ctx)
    as [Hcookie _].
  - intros c. reflexivity.
  - intros c. reflexivity.
  - reflexivity.
  - reflexivity.
  - reflexivity.
  - reflexivity.
  - exact Hcookie.
Defined.


Lemma set_port_id_keeps_the_mbl_byte :
  exists new_id,
    netdev Z
      (snd (fst (nfp_ual_set_port_id Z (fun _ => "eth0"%string) (fun d => d)
                   (fun _ v => v) sample_mbl_mask sample_ual_mask
                   {| netdev := 0xab000001 |} 0x00123456 empty_world)))
      = new_id /\
    Z.land new_id sample_mbl_mask = 0xab000000 /\
    Z.land new_id sample_ual_mask = 0x00123456.
Proof.
  destruct (set_port_id_splits_the_identifier Z (fun _ => "eth0"%string)
              (fun d => d) (fun _ v => v) sample_mbl_mask sample_ual_mask
              {| netdev := 0xab000001 |} 0x00123456 empty_world)
    as [new_id [Hdev [Hmbl [Hual _]]]].
  - reflexivity.
  - reflexivity.
  - exists new_id. split; [exact Hdev|].
    split; [rewrite Hmbl | rewrite Hual]; reflexivity.
Defined.
